(** * plot: a verification model of [plot/functions.py]

    The module is a thin layer over plotly, pathlib, datetime and logging.
    The Python functions are embedded as state-passing programs over a
    [World] that holds the figure objects (a store addressed by object
    identity), the file system, the wall clock, the viewer and the log.
    Library calls are embedded by their documented behaviour; what the
    charting engine computes from a data frame is left abstract (class
    [Engine]). *)

From Stdlib Require Import ZArith QArith Ascii String List Lia.
From stdpp Require Import base option list strings gmap fin_maps.

Local Open Scope stdpp_scope.

(** ** Python outcomes *)

(** The exceptions that can cross the module: plotly's argument errors, the
    [OSError] family raised by pathlib, and whatever the engine raises
    (kept opaque, tagged by its message). *)
Inductive exn : Type :=
| ValueError (msg : string)
| FileNotFoundError
| FileExistsError
| NotADirectoryError
| IsADirectoryError
| PermissionError
| EngineError (msg : string).

Inductive outcome (A : Type) : Type :=
| Ok (a : A)
| Raise (e : exn).

Arguments Ok {A} a.
Arguments Raise {A} e.

(** ** Plotly figures *)

Module Plotly.

(** A leaf property value. Numbers are rationals: the module only stores
    literals ([26], [850], [2.4]) and never computes with them. *)
Inductive scalar : Type :=
| SStr (s : string)
| SNum (q : Q)
| SBool (b : bool).

(** Every plotly object is a bag of optional properties. The records below
    name the properties this module writes; the remaining ones sit in the
    [*_other] maps, keyed by property name. *)
Record Font : Type := mkFont {
  font_family : option string;
  font_size : option Q;
  font_color : option string;
  font_other : gmap string scalar
}.

Record Margin : Type := mkMargin {
  margin_l : option Q;
  margin_r : option Q;
  margin_t : option Q;
  margin_b : option Q;
  margin_other : gmap string scalar
}.

Record Axis : Type := mkAxis {
  showline : option bool;
  showticklabels : option bool;
  linecolor : option string;
  linewidth : option Q;
  ticks : option string;
  tickfont : Font;
  mirror : option scalar;
  tickwidth : option Q;
  tickcolor : option string;
  axis_other : gmap string scalar
}.

Record Scene : Type := mkScene {
  xaxis_title : option string;
  yaxis_title : option string;
  zaxis_title : option string;
  scene_other : gmap string scalar
}.

(** [xaxes] and [yaxes] hold [layout.xaxis], [layout.xaxis2], ... by subplot
    number; number 1 is the unsuffixed axis. *)
Record Layout : Type := mkLayout {
  layout_font : Font;
  plot_bgcolor : option string;
  width : option Q;
  height : option Q;
  margin : Margin;
  xaxes : gmap positive Axis;
  yaxes : gmap positive Axis;
  title : option string;
  scene : Scene;
  layout_other : gmap string scalar
}.

(** A trace: its type and its properties by dotted path
    (["contours.z.show"]). *)
Record Trace : Type := mkTrace {
  trace_type : string;
  trace_props : gmap string scalar
}.

Record Figure : Type := mkFigure {
  data : list Trace;
  layout : Layout
}.

Definition empty_font : Font := mkFont None None None ∅.
Definition empty_margin : Margin := mkMargin None None None None ∅.
Definition empty_axis : Axis :=
  mkAxis None None None None None empty_font None None None ∅.
Definition empty_scene : Scene := mkScene None None None ∅.
Definition empty_layout : Layout :=
  mkLayout empty_font None None None empty_margin ∅ ∅ None empty_scene ∅.

(** *** Updates

    [update_layout], [update_xaxes] and [update_yaxes] merge their keyword
    arguments into the object: a property that is given replaces the old
    value, a nested dict is merged recursively, every other property is
    kept. An update is written as an object of the same type whose absent
    properties are [None]. *)
Definition override {A : Type} (new old : option A) : option A :=
  match new with
  | Some v => Some v
  | None => old
  end.

Definition update_font (kw old : Font) : Font :=
  {| font_family := override (font_family kw) (font_family old);
     font_size := override (font_size kw) (font_size old);
     font_color := override (font_color kw) (font_color old);
     font_other := font_other kw ∪ font_other old |}.

Definition update_margin (kw old : Margin) : Margin :=
  {| margin_l := override (margin_l kw) (margin_l old);
     margin_r := override (margin_r kw) (margin_r old);
     margin_t := override (margin_t kw) (margin_t old);
     margin_b := override (margin_b kw) (margin_b old);
     margin_other := margin_other kw ∪ margin_other old |}.

Definition update_axis (kw old : Axis) : Axis :=
  {| showline := override (showline kw) (showline old);
     showticklabels := override (showticklabels kw) (showticklabels old);
     linecolor := override (linecolor kw) (linecolor old);
     linewidth := override (linewidth kw) (linewidth old);
     ticks := override (ticks kw) (ticks old);
     tickfont := update_font (tickfont kw) (tickfont old);
     mirror := override (mirror kw) (mirror old);
     tickwidth := override (tickwidth kw) (tickwidth old);
     tickcolor := override (tickcolor kw) (tickcolor old);
     axis_other := axis_other kw ∪ axis_other old |}.

Definition update_scene (kw old : Scene) : Scene :=
  {| xaxis_title := override (xaxis_title kw) (xaxis_title old);
     yaxis_title := override (yaxis_title kw) (yaxis_title old);
     zaxis_title := override (zaxis_title kw) (zaxis_title old);
     scene_other := scene_other kw ∪ scene_other old |}.

Definition update_axes_dict (kw old : gmap positive Axis) : gmap positive Axis :=
  union_with (fun k o => Some (update_axis k o)) kw old.

Definition update_layout (kw : Layout) (fig : Figure) : Figure :=
  let old := layout fig in
  {| data := data fig;
     layout :=
       {| layout_font := update_font (layout_font kw) (layout_font old);
          plot_bgcolor := override (plot_bgcolor kw) (plot_bgcolor old);
          width := override (width kw) (width old);
          height := override (height kw) (height old);
          margin := update_margin (margin kw) (margin old);
          xaxes := update_axes_dict (xaxes kw) (xaxes old);
          yaxes := update_axes_dict (yaxes kw) (yaxes old);
          title := override (title kw) (title old);
          scene := update_scene (scene kw) (scene old);
          layout_other := layout_other kw ∪ layout_other old |} |}.

(** [select_xaxes] / [select_yaxes] with no selector: every axis object of
    the layout. The unsuffixed axis is always among them, because reading
    [layout.xaxis] creates the object when the layout has none. *)
Definition select_axes (axes : gmap positive Axis) : gmap positive Axis :=
  match axes !! 1%positive with
  | Some _ => axes
  | None => <[1%positive := empty_axis]> axes
  end.

Definition for_each_axis (kw : Axis) (axes : gmap positive Axis) : gmap positive Axis :=
  update_axis kw <$> select_axes axes.

Definition set_xaxes (l : Layout) (ax : gmap positive Axis) : Layout :=
  mkLayout (layout_font l) (plot_bgcolor l) (width l) (height l) (margin l)
    ax (yaxes l) (title l) (scene l) (layout_other l).

Definition set_yaxes (l : Layout) (ax : gmap positive Axis) : Layout :=
  mkLayout (layout_font l) (plot_bgcolor l) (width l) (height l) (margin l)
    (xaxes l) ax (title l) (scene l) (layout_other l).

Definition update_xaxes (kw : Axis) (fig : Figure) : Figure :=
  {| data := data fig;
     layout := set_xaxes (layout fig) (for_each_axis kw (xaxes (layout fig))) |}.

Definition update_yaxes (kw : Axis) (fig : Figure) : Figure :=
  {| data := data fig;
     layout := set_yaxes (layout fig) (for_each_axis kw (yaxes (layout fig))) |}.

(** [update_traces] with keyword arguments: the given properties are written into every
    trace. *)
Definition update_traces (kw : gmap string scalar) (fig : Figure) : Figure :=
  {| data := (fun t => mkTrace (trace_type t) (kw ∪ trace_props t)) <$> data fig;
     layout := layout fig |}.

End Plotly.

(** ** pathlib: pure POSIX paths *)

Module Pathlib.

(** The root of a path: none (relative), ["/"], or ["//"] (exactly two
    leading slashes, which POSIX keeps apart). *)
Inductive Anchor : Type :=
| NoRoot
| Slash
| DoubleSlash.

Record Path : Type := mkPath {
  anchor : Anchor;
  parts : list string
}.

Definition is_sep (c : ascii) : bool := Ascii.eqb c "/".

(** [s.split("/")]: never empty, [""] gives [[""]]. *)
Fixpoint split_sep (s : string) : list string :=
  match s with
  | EmptyString => [EmptyString]
  | String c s' =>
      if is_sep c then EmptyString :: split_sep s'
      else match split_sep s' with
           | h :: t => String c h :: t
           | [] => [String c EmptyString]
           end
  end.

(** [posixpath.splitroot]: the root and the rest. *)
Definition splitroot (s : string) : Anchor * string :=
  match s with
  | String c1 s1 =>
      if is_sep c1 then
        match s1 with
        | String c2 s2 =>
            if is_sep c2 then
              match s2 with
              | String c3 _ => if is_sep c3 then (Slash, s1) else (DoubleSlash, s2)
              | EmptyString => (DoubleSlash, s2)
              end
            else (Slash, s1)
        | EmptyString => (Slash, s1)
        end
      else (NoRoot, s)
  | EmptyString => (NoRoot, s)
  end.

(** A component survives parsing when it is neither empty nor ["."]. *)
Definition keeps (x : string) : bool :=
  negb (String.eqb x "") && negb (String.eqb x ".").

(** [PurePosixPath(s)] *)
Definition parse (s : string) : Path :=
  let '(a, rel) := splitroot s in
  mkPath a (List.filter keeps (split_sep rel)).

(** [p / key] for a string [key]: an absolute [key] replaces [p]. *)
Definition joinpath (p : Path) (key : string) : Path :=
  let q := parse key in
  match anchor q with
  | NoRoot => mkPath (anchor p) (parts p ++ parts q)
  | _ => q
  end.

Definition anchor_str (a : Anchor) : string :=
  match a with
  | NoRoot => ""
  | Slash => "/"
  | DoubleSlash => "//"
  end.

Fixpoint join_sep (l : list string) : string :=
  match l with
  | [] => ""
  | [x] => x
  | x :: rest => x +:+ "/" +:+ join_sep rest
  end.

(** [str(p)] *)
Definition path_str (p : Path) : string :=
  match anchor p, parts p with
  | NoRoot, [] => "."
  | a, ps => anchor_str a +:+ join_sep ps
  end.

(** [p.parent] (lexical; the parent of a path without parts is itself) and
    [p.name]. *)
Definition parent (p : Path) : Path := mkPath (anchor p) (removelast (parts p)).

Definition name (p : Path) : string := List.last (parts p) "".

(** [s] holds no separator. *)
Definition no_sep (s : string) : Prop := split_sep s = [s].

(** What every [Path] value satisfies: its parts went through [parse]. *)
Definition wf_part (x : string) : Prop :=
  keeps x = true ∧ no_sep x.

Definition wf_path (p : Path) : Prop := Forall wf_part (parts p).

End Pathlib.

(** ** datetime *)

Module Datetime.

Record datetime : Type := mkDatetime {
  year : N;
  month : N;
  day : N;
  hour : N;
  minute : N;
  second : N;
  microsecond : N
}.

(** The ranges of a [datetime] object ([MINYEAR] is 1, [MAXYEAR] 9999). *)
Definition valid (d : datetime) : Prop :=
  (1 <= year d <= 9999 ∧ 1 <= month d <= 12 ∧ 1 <= day d <= 31 ∧
   hour d < 24 ∧ minute d < 60 ∧ second d < 60 ∧ microsecond d < 1000000)%N.

Definition digits : list ascii :=
  ["0"; "1"; "2"; "3"; "4"; "5"; "6"; "7"; "8"; "9"]%char.

Definition digit (d : N) : ascii := nth (N.to_nat d) digits "0"%char.

(** [n] as a decimal number zero-padded to [w] digits (the low [w] digits). *)
Fixpoint padded (w : nat) (n : N) : string :=
  match w with
  | 0 => ""
  | S w' => padded w' (n / 10)%N +:+ String (digit (n mod 10)%N) ""
  end.

(** [n] as a decimal number without padding. The recursion is on the
    number of binary digits of [n], which bounds that of its decimal
    ones. *)
Fixpoint decimal_fuel (fuel : nat) (n : N) : string :=
  match fuel with
  | 0 => ""
  | S fuel' =>
      if (n <? 10)%N then String (digit n) ""
      else decimal_fuel fuel' (n / 10)%N +:+ String (digit (n mod 10)%N) ""
  end.

Definition decimal (n : N) : string :=
  decimal_fuel (S (N.to_nat (N.log2 n))) n.

(** The directives of [strftime]. CPython hands [%Y %m %d %H %M %S] to
    the C library and fills in [%f] itself: [%m %d %H %M %S] are
    zero-padded to 2 digits, [%f] is the microsecond zero-padded to 6, and
    [%Y] is the year with century as a decimal number, which glibc prints
    without padding (so with four digits from the year 1000 on, and with
    fewer before). Any other directive is left in place. *)
Definition directive (d : datetime) (c : ascii) : string :=
  if Ascii.eqb c "Y" then decimal (year d)
  else if Ascii.eqb c "m" then padded 2 (month d)
  else if Ascii.eqb c "d" then padded 2 (day d)
  else if Ascii.eqb c "H" then padded 2 (hour d)
  else if Ascii.eqb c "M" then padded 2 (minute d)
  else if Ascii.eqb c "S" then padded 2 (second d)
  else if Ascii.eqb c "f" then padded 6 (microsecond d)
  else String "%" (String c "").

Fixpoint strftime (d : datetime) (fmt : string) : string :=
  match fmt with
  | EmptyString => ""
  | String c rest =>
      if Ascii.eqb c "%" then
        match rest with
        | String k rest' => directive d k +:+ strftime d rest'
        | EmptyString => "%"
        end
      else String c (strftime d rest)
  end.

Definition is_digit (c : ascii) : bool := bool_decide (c ∈ digits).

(** [s] has the shape [pat], where a [d] in [pat] stands for any decimal
    digit and every other character for itself. *)
Fixpoint has_shape (pat s : string) : bool :=
  match pat, s with
  | EmptyString, EmptyString => true
  | String p pat', String c s' =>
      (if Ascii.eqb p "d" then is_digit c else Ascii.eqb p c) && has_shape pat' s'
  | _, _ => false
  end.

End Datetime.

(** ** The file system *)

Module FS.

Import Pathlib.

(** A node is a regular file with its text or a directory with its write
    permission. Nodes are keyed by their location, the list of names from
    the root; there are no symbolic links. *)
Inductive node : Type :=
| File (content : string)
| Dir (writable : bool).

(** The file system is a partial map from locations to nodes. *)
Definition fs : Type := list string → option node.

(** The limits of the system on what it is handed: a name of at most
    [NAME_MAX] = 255 bytes, a path string shorter than [PATH_MAX] = 4096,
    and no NUL in either. The operations below are those of the system
    within these limits and have no error for what lies outside; a
    statement that concludes that something is created names the limits
    in its hypotheses. *)
Definition name_ok (c : string) : bool :=
  (String.length c <=? 255)
  && forallb (λ x, negb (Ascii.eqb x "000")) (list_ascii_of_string c).

Definition path_ok (p : Path) : bool :=
  forallb name_ok (parts p) && (String.length (path_str p) <? 4096).

#[global] Instance fs_lookup : Lookup (list string) node fs := λ k t, t k.

#[global] Instance fs_insert : Insert (list string) node fs :=
  λ k n t k', if decide (k' = k) then Some n else t k'.

#[global] Instance fs_empty : Empty fs := λ _, None.

#[global] Arguments fs_lookup : simpl never.
#[global] Arguments fs_insert : simpl never.

(** One step of name resolution from directory [cur]. *)
Definition step (cur : list string) (c : string) : list string :=
  if String.eqb c ".." then removelast cur else cur ++ [c].

(** Resolve a chain of directory names: each must lead to a directory. *)
Fixpoint lookup_dir (t : fs) (cur : list string) (comps : list string)
  : outcome (list string) :=
  match comps with
  | [] => Ok cur
  | c :: rest =>
      match t !! step cur c with
      | Some (Dir _) => lookup_dir t (step cur c) rest
      | Some (File _) => Raise NotADirectoryError
      | None => Raise FileNotFoundError
      end
  end.

Definition start (cwd : list string) (p : Path) : list string :=
  match anchor p with
  | NoRoot => cwd
  | _ => []
  end.

(** The location a path names, with the directory that holds it; the last
    component need not exist. *)
Definition locate (t : fs) (cwd : list string) (p : Path)
  : outcome (list string * list string) :=
  match parts p with
  | [] => Ok (start cwd p, start cwd p)
  | _ =>
      match lookup_dir t (start cwd p) (removelast (parts p)) with
      | Ok d => Ok (d, step d (List.last (parts p) ""))
      | Raise e => Raise e
      end
  end.

(** [os.mkdir(p)] *)
Definition os_mkdir (t : fs) (cwd : list string) (p : Path) : outcome fs :=
  match locate t cwd p with
  | Raise e => Raise e
  | Ok (d, k) =>
      match t !! k with
      | Some _ => Raise FileExistsError
      | None =>
          match t !! d with
          | Some (Dir true) => Ok (<[k := Dir true]> t)
          | Some (Dir false) => Raise PermissionError
          | Some (File _) => Raise NotADirectoryError
          | None => Raise FileNotFoundError
          end
      end
  end.

(** [p.is_dir()]: false also when the path cannot be resolved. *)
Definition is_dir (t : fs) (cwd : list string) (p : Path) : bool :=
  match locate t cwd p with
  | Ok (_, k) => match t !! k with Some (Dir _) => true | _ => false end
  | Raise _ => false
  end.

Definition is_FileNotFoundError (e : exn) : bool :=
  match e with FileNotFoundError => true | _ => false end.

(** The [except OSError] arm of [Path.mkdir]. *)
Definition mkdir_exists (exist_ok : bool) (t : fs) (cwd : list string) (p : Path)
  (e : exn) : fs * outcome unit :=
  if negb exist_ok || negb (is_dir t cwd p) then (t, Raise e) else (t, Ok tt).

(** [Path.mkdir(parents=False, exist_ok)] *)
Definition mkdir_here (exist_ok : bool) (t : fs) (cwd : list string) (p : Path)
  : fs * outcome unit :=
  match os_mkdir t cwd p with
  | Ok t' => (t', Ok tt)
  | Raise e =>
      if is_FileNotFoundError e then (t, Raise e)
      else mkdir_exists exist_ok t cwd p e
  end.

(** [Path.mkdir(parents, exist_ok)]:
<<
    try: os.mkdir(self, mode)
    except FileNotFoundError:
        if not parents or self.parent == self: raise
        self.parent.mkdir(parents=True, exist_ok=True)
        self.mkdir(mode, parents=False, exist_ok=exist_ok)
    except OSError:
        if not exist_ok or not self.is_dir(): raise
>>
    The recursion is on the number [n] of parts of [p]; [self.parent ==
    self] holds exactly when there is none. *)
Fixpoint mkdir_rec (n : nat) (parents exist_ok : bool) (t : fs)
  (cwd : list string) (p : Path) : fs * outcome unit :=
  match os_mkdir t cwd p with
  | Ok t' => (t', Ok tt)
  | Raise e =>
      if is_FileNotFoundError e then
        match n with
        | 0 => (t, Raise e)
        | S n' =>
            if negb parents then (t, Raise e)
            else
              match mkdir_rec n' true true t cwd (parent p) with
              | (t1, Ok _) => mkdir_here exist_ok t1 cwd p
              | (t1, Raise e1) => (t1, Raise e1)
              end
        end
      else mkdir_exists exist_ok t cwd p e
  end.

Definition mkdir (parents exist_ok : bool) (t : fs) (cwd : list string) (p : Path)
  : fs * outcome unit :=
  mkdir_rec (length (parts p)) parents exist_ok t cwd p.

(** [p.write_text(text)]: open for writing (create or truncate) and write. *)
Definition write_text (t : fs) (cwd : list string) (p : Path) (text : string)
  : outcome fs :=
  match locate t cwd p with
  | Raise e => Raise e
  | Ok (d, k) =>
      match t !! k with
      | Some (Dir _) => Raise IsADirectoryError
      | Some (File _) => Ok (<[k := File text]> t)
      | None =>
          match t !! d with
          | Some (Dir true) => Ok (<[k := File text]> t)
          | Some (Dir false) => Raise PermissionError
          | Some (File _) => Raise NotADirectoryError
          | None => Raise FileNotFoundError
          end
      end
  end.

(** [p.read_text()], when [p] names a regular file. *)
Definition read_text (t : fs) (cwd : list string) (p : Path) : option string :=
  match locate t cwd p with
  | Ok (_, k) => match t !! k with Some (File s) => Some s | _ => None end
  | Raise _ => None
  end.

End FS.

(** ** The world and the monad of Python programs *)

Import Plotly Pathlib Datetime.

(** Figure objects are addressed by identity. *)
Abbreviation ref := positive.

Record World : Type := mkWorld {
  w_figs : gmap ref Figure;        (* the live figure objects *)
  w_fs : FS.fs;                    (* the file system *)
  w_cwd : list string;             (* the working directory *)
  w_now : datetime;                (* what [datetime.now()] reads *)
  w_uuid : nat → string;           (* the values [uuid.uuid4()] will draw *)
  w_viewer : option exn;           (* [Some e]: showing a figure raises [e] *)
  w_shown : list Figure;           (* the figures handed to the viewer *)
  w_log : list string              (* the INFO records of the module logger *)
}.

Definition with_figs (w : World) (m : gmap ref Figure) : World :=
  mkWorld m (w_fs w) (w_cwd w) (w_now w) (w_uuid w) (w_viewer w) (w_shown w) (w_log w).

Definition with_fs (w : World) (t : FS.fs) : World :=
  mkWorld (w_figs w) t (w_cwd w) (w_now w) (w_uuid w) (w_viewer w) (w_shown w) (w_log w).

Definition with_now (w : World) (d : datetime) : World :=
  mkWorld (w_figs w) (w_fs w) (w_cwd w) d (w_uuid w) (w_viewer w) (w_shown w) (w_log w).

Definition with_uuid (w : World) (u : nat → string) : World :=
  mkWorld (w_figs w) (w_fs w) (w_cwd w) (w_now w) u (w_viewer w) (w_shown w) (w_log w).

Definition with_shown (w : World) (l : list Figure) : World :=
  mkWorld (w_figs w) (w_fs w) (w_cwd w) (w_now w) (w_uuid w) (w_viewer w) l (w_log w).

Definition with_log (w : World) (l : list string) : World :=
  mkWorld (w_figs w) (w_fs w) (w_cwd w) (w_now w) (w_uuid w) (w_viewer w) (w_shown w) l.

(** A program returns a value or raises, and leaves a world either way. *)
Definition M (A : Type) : Type := World -> World * outcome A.

Definition ret {A : Type} (a : A) : M A := fun w => (w, Ok a).

Definition raise {A : Type} (e : exn) : M A := fun w => (w, Raise e).

Definition bind {A B : Type} (c : M A) (k : A -> M B) : M B :=
  fun w =>
    match c w with
    | (w', Ok a) => k a w'
    | (w', Raise e) => (w', Raise e)
    end.

Declare Scope py_scope.
Delimit Scope py_scope with py.
Notation "x <- c ;; k" := (bind c (fun x => k))
  (at level 100, c at next level, right associativity) : py_scope.
Notation "c ;;; k" := (bind c (fun _ => k))
  (at level 100, right associativity) : py_scope.

(** A library call that raises or returns without touching the world. *)
Definition lift {A : Type} (o : outcome A) : M A := fun w => (w, o).

(** *** Figure objects *)

(** A new object gets an identity no live object has. *)
Definition new_figure (f : Figure) : M ref :=
  fun w =>
    let r := fresh (dom (w_figs w)) in
    (with_figs w (<[r := f]> (w_figs w)), Ok r).

Definition get_figure (r : ref) : M Figure :=
  fun w =>
    match w_figs w !! r with
    | Some f => (w, Ok f)
    | None => (w, Raise (ValueError "not a figure"))
    end.

(** In-place update of the object [r]. *)
Definition mutate (g : Figure -> Figure) (r : ref) : M unit :=
  fun w =>
    match w_figs w !! r with
    | Some f => (with_figs w (<[r := g f]> (w_figs w)), Ok tt)
    | None => (w, Raise (ValueError "not a figure"))
    end.

(** [go.Figure(fig)]: a new figure object whose traces and layout are deep
    copies of those of [fig]. *)
Definition go_Figure_copy (fig : ref) : M ref :=
  bind (get_figure fig) new_figure.

(** [go.Figure(data=traces)] *)
Definition go_Figure (traces : list Trace) : M ref :=
  new_figure (mkFigure traces empty_layout).

(** [fig.show()] *)
Definition show_figure (fig : ref) : M unit :=
  bind (get_figure fig) (fun f w =>
    match w_viewer w with
    | None => (with_shown w (w_shown w ++ [f]), Ok tt)
    | Some e => (w, Raise e)
    end).

(** *** Clock, randomness, log, files *)

Definition datetime_now : M datetime := fun w => (w, Ok (w_now w)).

Definition uuid4 : M string :=
  fun w => (with_uuid w (λ n, w_uuid w (S n)), Ok (w_uuid w 0)).

Definition LOG_info (msg : string) : M unit :=
  fun w => (with_log w (w_log w ++ [msg]), Ok tt).

Definition Path_mkdir (p : Path) (parents exist_ok : bool) : M unit :=
  fun w =>
    let '(t, o) := FS.mkdir parents exist_ok (w_fs w) (w_cwd w) p in
    (with_fs w t, o).

Definition Path_write_text (p : Path) (text : string) : M unit :=
  fun w =>
    match FS.write_text (w_fs w) (w_cwd w) p text with
    | Ok t => (with_fs w t, Ok tt)
    | Raise e => (w, Raise e)
    end.

(** ** The charting engine

    What plotly express builds from a data frame and how a figure is
    rendered to HTML are outside the module. Each constructor either
    returns a figure (trace) or raises. *)

(** A column selector: one name or a list of names. *)
Inductive columns : Type :=
| Col (c : string)
| Cols (cs : list string).

Class Engine : Type := {
  DataFrame : Type;
  Array : Type;
  (* px.line(data_frame, x, y, title, error_x, error_y, markers, facet_col,
             facet_row, template) *)
  px_line : DataFrame -> string -> columns -> option string -> option string ->
            option string -> bool -> option string -> option string -> string ->
            outcome Figure;
  (* px.scatter(data_frame, x, y, color, symbol, size, title, error_x,
                error_y, facet_col, facet_row) *)
  px_scatter : DataFrame -> string -> columns -> option string -> option string ->
               option string -> option string -> option string -> option string ->
               option string -> option string -> outcome Figure;
  (* px.scatter_3d(data_frame, x, y, z, color, symbol, size, title, error_x,
                   error_y, error_z) *)
  px_scatter_3d : DataFrame -> string -> string -> columns -> option string ->
                  option string -> option string -> option string -> option string ->
                  option string -> option string -> outcome Figure;
  (* go.Surface(z, x, y) *)
  go_Surface : Array -> Array -> Array -> outcome Trace;
  (* plotly.io.to_html(fig, include_mathjax, div_id) *)
  to_html : Figure -> string -> string -> string
}.

(** ** plot/functions.py *)

Section Functions.

Context `{E : Engine}.

Local Open Scope py_scope.

(** [fig.write_html(file, include_mathjax)]: render with a fresh div id and
    write the text to the file. *)
Definition write_html (fig : ref) (file : Path) (include_mathjax : string) : M unit :=
  f <- get_figure fig ;;
  div_id <- uuid4 ;;
  Path_write_text file (to_html f include_mathjax div_id).

Definition font_dict : Font :=
  {| font_family := Some "Arial"; font_size := Some 26%Q;
     font_color := Some "black"; font_other := ∅ |}.

Definition layout_kwargs : Layout :=
  {| layout_font := font_dict;
     plot_bgcolor := Some "white";
     width := Some 850%Q;
     height := Some 700%Q;
     margin := {| margin_l := None; margin_r := Some 20%Q; margin_t := Some 20%Q;
                  margin_b := Some 10%Q; margin_other := ∅ |};
     xaxes := ∅; yaxes := ∅; title := None; scene := empty_scene;
     layout_other := ∅ |}.

Definition yaxes_kwargs : Axis :=
  {| showline := Some true;
     showticklabels := None;
     linecolor := Some "black";
     linewidth := Some 2.4%Q;
     ticks := Some "outside";
     tickfont := font_dict;
     mirror := Some (SStr "allticks");
     tickwidth := Some 2.4%Q;
     tickcolor := Some "black";
     axis_other := ∅ |}.

Definition xaxes_kwargs : Axis :=
  {| showline := Some true;
     showticklabels := Some true;
     linecolor := Some "black";
     linewidth := Some 2.4%Q;
     ticks := Some "outside";
     tickfont := font_dict;
     mirror := Some (SStr "allticks");
     tickwidth := Some 2.4%Q;
     tickcolor := Some "black";
     axis_other := ∅ |}.

Definition style_to_matplotlib (fig : ref) : M ref :=
  fig_styled <- go_Figure_copy fig ;;
  mutate (update_layout layout_kwargs) fig_styled ;;;
  mutate (update_yaxes yaxes_kwargs) fig_styled ;;;
  mutate (update_xaxes xaxes_kwargs) fig_styled ;;;
  ret fig_styled.

Definition line (df : DataFrame) (x : string) (y : columns)
  (fc fr x_error y_error : option string) (markers : bool)
  (title : option string) (show dark : bool) : M ref :=
  let template := if dark then "plotly_dark" else "plotly" in
  f <- lift (px_line df x y title x_error y_error markers fc fr template) ;;
  fig <- new_figure f ;;
  (if show then show_figure fig else ret tt) ;;;
  ret fig.

Definition scatter (df : DataFrame) (x : string) (y : columns)
  (c s m fc fr x_error y_error title : option string) (show : bool) : M ref :=
  f <- lift (px_scatter df x y c m s title x_error y_error fc fr) ;;
  fig <- new_figure f ;;
  (if show then show_figure fig else ret tt) ;;;
  ret fig.

Definition scatter3 (df : DataFrame) (x y : string) (z : columns)
  (c s m x_error y_error z_error title : option string) (show : bool) : M ref :=
  f <- lift (px_scatter_3d df x y z c m s title x_error y_error z_error) ;;
  fig <- new_figure f ;;
  (if show then show_figure fig else ret tt) ;;;
  ret fig.

Definition contours_z_kwargs : gmap string scalar :=
  {[ "contours.z.show" := SBool true;
     "contours.z.usecolormap" := SBool true;
     "contours.z.highlightcolor" := SStr "limegreen";
     "contours.z.project.z" := SBool true ]}.

(** [update_layout(title=title, scene=dict(xaxis_title=.., ..))]: the four
    properties are assigned, [None] included. *)
Definition assign_titles (title title_x title_y title_z : option string)
  (f : Figure) : Figure :=
  let l := layout f in
  {| data := data f;
     layout :=
       mkLayout (layout_font l) (plot_bgcolor l) (width l) (height l) (margin l)
         (xaxes l) (yaxes l) title
         (mkScene title_x title_y title_z (scene_other (scene l)))
         (layout_other l) |}.

Definition surface (x y z : Array) (title title_x title_y title_z : option string)
  (show : bool) : M ref :=
  t <- lift (go_Surface z x y) ;;
  fig <- go_Figure [t] ;;
  mutate (update_traces contours_z_kwargs) fig ;;;
  mutate (assign_titles title title_x title_y title_z) fig ;;;
  (if show then show_figure fig else ret tt) ;;;
  ret fig.

Definition save (fig : ref) (name : string) (path : Path) : M Path :=
  Path_mkdir path true true ;;;
  now <- datetime_now ;;
  let timestamp := strftime now "%Y-%m-%d_%H-%M-%S-%f" in
  let filepath := joinpath path (name +:+ "_" +:+ timestamp +:+ ".html") in
  write_html fig filepath "cdn" ;;;
  LOG_info ("Saved figure to " +:+ path_str filepath) ;;;
  ret filepath.

End Functions.

(** ** plot/libs/utillib.py: the broadcast helper of the tests *)

Module Utillib.

(** An n-dimensional array: its shape and its elements in row-major
    order. *)
Record ndarray (A : Type) : Type := mkArray {
  shape : list nat;
  elems : list A
}.

Arguments mkArray {A} shape elems.
Arguments shape {A} _.
Arguments elems {A} _.

(** The number of elements of an array of a shape. *)
Definition count (sh : list nat) : nat := foldr Nat.mul 1 sh.

(** An index is within a shape. *)
Definition in_bounds (sh idx : list nat) : Prop := Forall2 (λ i n, i < n) idx sh.

(** The row-major position of an index. *)
Fixpoint offset (sh idx : list nat) : nat :=
  match sh, idx with
  | _ :: sh', i :: idx' => i * count sh' + offset sh' idx'
  | _, _ => 0
  end.

(** [arr[idx]] *)
Definition get {A : Type} (arr : ndarray A) (idx : list nat) : option A :=
  elems arr !! offset (shape arr) idx.

(** The elements of the array that holds [f idx] at every index. *)
Fixpoint tabulate {A : Type} (sh : list nat) (f : list nat → A) : list A :=
  match sh with
  | [] => [f []]
  | n :: sh' => mjoin ((λ i, tabulate sh' (λ idx, f (i :: idx))) <$> seq 0 n)
  end.

(** The one-dimensional slice of [arr] along axis [dim] through the index
    [idx]: the entries at [idx] with its component [dim] running over the
    axis. *)
Definition slice_along {A : Type} (arr : ndarray A) (dim : nat) (idx : list nat)
  : list (option A) :=
  (λ k, get arr (<[dim := k]> idx)) <$> seq 0 (shape arr !!! dim).

(** Modelled from the spec: [utillib.orient_and_broadcast], whose source
    is not among the files. The spec: given a 1-D sequence [a], an axis
    [dim] and a target shape, produce an array of that shape where values
    vary only along [dim] and are replicated across all other axes; if
    [len(a) != shape[dim]] the operation fails with a shape-mismatch
    error. The spec says nothing of an axis outside the shape; the model
    raises there too. *)
Definition orient_and_broadcast {A : Type} `{!Inhabited A}
  (a : list A) (dim : nat) (sh : list nat) : outcome (ndarray A) :=
  match sh !! dim with
  | None => Raise (ValueError "axis out of range")
  | Some n =>
      if decide (length a = n)
      then Ok (mkArray sh (tabulate sh (λ idx, a !!! (idx !!! dim))))
      else Raise (ValueError "shape mismatch")
  end.

End Utillib.

(** ** Derived notions used by the statements *)

(** What the three updates of [style_to_matplotlib] do to a figure value. *)
Definition styled (f : Figure) : Figure :=
  update_xaxes xaxes_kwargs (update_yaxes yaxes_kwargs (update_layout layout_kwargs f)).

(** The axis settings of the theme. *)
Definition themed_axis (a : Axis) : Prop :=
  showline a = Some true ∧
  linecolor a = Some "black" ∧
  linewidth a = Some 2.4%Q ∧
  ticks a = Some "outside" ∧
  mirror a = Some (SStr "allticks") ∧
  tickwidth a = Some 2.4%Q ∧
  tickcolor a = Some "black" ∧
  font_family (tickfont a) = Some "Arial" ∧
  font_size (tickfont a) = Some 26%Q ∧
  font_color (tickfont a) = Some "black".

(** The layout settings of the theme: the fixed constants, on the layout
    and on every x and y axis, the unsuffixed axes included. *)
Definition themed_layout (l : Layout) : Prop :=
  font_family (layout_font l) = Some "Arial" ∧
  font_size (layout_font l) = Some 26%Q ∧
  font_color (layout_font l) = Some "black" ∧
  plot_bgcolor l = Some "white" ∧
  width l = Some 850%Q ∧
  height l = Some 700%Q ∧
  margin_r (margin l) = Some 20%Q ∧
  margin_t (margin l) = Some 20%Q ∧
  margin_b (margin l) = Some 10%Q ∧
  is_Some (xaxes l !! 1%positive) ∧
  is_Some (yaxes l !! 1%positive) ∧
  (∀ k a, xaxes l !! k = Some a → themed_axis a ∧ showticklabels a = Some true) ∧
  (∀ k a, yaxes l !! k = Some a → themed_axis a).

(** The cosmetic settings the theme fixes, as one value. *)
Definition axis_cosmetics (a : Axis) :=
  (showline a, linecolor a, linewidth a, ticks a, mirror a, tickwidth a,
   tickcolor a, font_family (tickfont a), font_size (tickfont a),
   font_color (tickfont a)).

Definition cosmetics (l : Layout) :=
  (font_family (layout_font l), font_size (layout_font l),
   font_color (layout_font l), plot_bgcolor l, width l, height l,
   margin_r (margin l), margin_t (margin l), margin_b (margin l),
   axis_cosmetics <$> (xaxes l !! 1%positive),
   axis_cosmetics <$> (yaxes l !! 1%positive)).

(** The shape the four builders share: the engine builds a figure or
    raises, the figure becomes an object, it is shown on demand, and the
    object is returned. *)
Definition present (o : outcome Figure) (show : bool) : M ref :=
  (f <- lift o ;;
   fig <- new_figure f ;;
   (if show then show_figure fig else ret tt) ;;;
   ret fig)%py.

(** The figure [surface] assembles around the trace of the engine. *)
Definition surface_figure (title title_x title_y title_z : option string)
  (t : Trace) : Figure :=
  assign_titles title title_x title_y title_z
    (update_traces contours_z_kwargs (mkFigure [t] empty_layout)).

Definition outcome_map {A B : Type} (g : A → B) (o : outcome A) : outcome B :=
  match o with
  | Ok a => Ok (g a)
  | Raise e => Raise e
  end.

(** The contract of a builder run [b] in world [w], when the engine built
    the figure [f]: the result is a new object holding [f]; the viewer gets
    [f] when [show] is set (if the viewer fails, its error comes out), and
    is not touched otherwise. *)
Definition builds (b : M ref) (f : Figure) (show : bool) (w : World) : Prop :=
  let r := fresh (dom (w_figs w)) in
  let w1 := with_figs w (<[r := f]> (w_figs w)) in
  w_figs w !! r = None ∧
  (show = false → b w = (w1, Ok r)) ∧
  (show = true → w_viewer w = None →
     b w = (with_shown w1 (w_shown w ++ [f]), Ok r)) ∧
  (show = true → ∀ e, w_viewer w = Some e → b w = (w1, Raise e)) ∧
  (w_shown (b w).1 ≠ w_shown w → show = true).

(** The contract of a builder run [b] over the engine outcome [o] as to
    errors: an error of the engine comes out as it is, before anything
    happened; and the only errors that come out are the engine's and the
    viewer's. *)
Definition propagates (b : M ref) (o : outcome Figure) (show : bool) (w : World)
  : Prop :=
  (∀ e, o = Raise e → b w = (w, Raise e)) ∧
  (∀ e, (b w).2 = Raise e →
     o = Raise e ∨ (show = true ∧ w_viewer w = Some e ∧ ∃ f, o = Ok f)).

(** A small engine for the worked examples: a data frame is the list of its
    column names, and a constructor raises on a column the frame lacks. *)
Definition has_columns (df : list string) (cs : list string) : bool :=
  forallb (fun c => bool_decide (c ∈ df)) cs.

Definition selected (y : columns) : list string :=
  match y with
  | Col c => [c]
  | Cols cs => cs
  end.

Definition toy_figure (kind : string) (y : columns) : Figure :=
  mkFigure ((fun _ => mkTrace kind ∅) <$> selected y) empty_layout.

Definition toy_build (kind : string) (df : list string) (x : string) (y : columns)
  : outcome Figure :=
  if has_columns df (x :: selected y) then Ok (toy_figure kind y)
  else Raise (EngineError "column not in data frame").

Definition toy_engine : Engine := {|
  DataFrame := list string;
  Array := list Q;
  px_line df x y _ _ _ _ _ _ _ := toy_build "scatter" df x y;
  px_scatter df x y _ _ _ _ _ _ _ _ := toy_build "scatter" df x y;
  px_scatter_3d df x _ z _ _ _ _ _ _ _ := toy_build "scatter3d" df x z;
  go_Surface z x y :=
    if bool_decide (z = []) then Raise (EngineError "empty z")
    else Ok (mkTrace "surface" ∅);
  to_html f mathjax div_id := "<html>" +:+ mathjax +:+ ":" +:+ div_id +:+ "</html>"
|}.

(** *** Notions for [save] *)

(** The format string of [save]. *)
Definition stamp_format : string := "%Y-%m-%d_%H-%M-%S-%f".

(** The path [save] builds at clock reading [now]. *)
Definition saved_path (name : string) (path : Path) (now : datetime) : Path :=
  joinpath path (name +:+ "_" +:+ strftime now stamp_format +:+ ".html").

(** The world once [uuid.uuid4()] has drawn, and the text [write_html]
    renders in world [w]. *)
Definition drawn (w : World) : World := with_uuid w (λ n, w_uuid w (S n)).

Definition saved_html `{E : Engine} (f : Figure) (w : World) : string :=
  to_html f "cdn" (w_uuid w 0).

(** [p.read_text()] in a world. *)
Definition read (w : World) (p : Path) : option string :=
  FS.read_text (w_fs w) (w_cwd w) p.

(** The directories and the stem a base name contributes to the path. *)
Definition name_dirs (name : string) : list string :=
  List.filter keeps (removelast (split_sep (splitroot name).2)).

Definition name_stem (name : string) : string :=
  List.last (split_sep (splitroot name).2) "".

(** [t'] keeps every directory of [t]. *)
Definition keeps_dirs (t t' : FS.fs) : Prop :=
  ∀ k w, t !! k = Some (FS.Dir w) → t' !! k = Some (FS.Dir w).

(** [t'] keeps every node of [t]. *)
Definition keeps_nodes (t t' : FS.fs) : Prop :=
  ∀ k n, t !! k = Some n → t' !! k = Some n.

(** The first [n] missing directories below [d], created one inside the
    other along the names [news]. *)
Fixpoint add_dirs (t : FS.fs) (d news : list string) (n : nat) : FS.fs :=
  match n with
  | 0 => t
  | S m => <[d ++ take (S m) news := FS.Dir true]> (add_dirs t d news m)
  end.

(** A name other than [".."]. *)
Definition plain (c : string) : Prop := String.eqb c ".." = false.

(** *** Notions for the further properties *)

(** The properties [surface] sets on its trace. *)
Definition contour_keys : list string :=
  ["contours.z.show"; "contours.z.usecolormap"; "contours.z.highlightcolor";
   "contours.z.project.z"].

(** Lexicographic combination of two comparisons. *)
Definition then_compare (c1 c2 : comparison) : comparison :=
  match c1 with
  | Eq => c2
  | _ => c1
  end.

(** The order of [datetime] objects: field by field, the year first. *)
Definition datetime_compare (d1 d2 : datetime) : comparison :=
  then_compare (year d1 ?= year d2)%N
    (then_compare (month d1 ?= month d2)%N
       (then_compare (day d1 ?= day d2)%N
          (then_compare (hour d1 ?= hour d2)%N
             (then_compare (minute d1 ?= minute d2)%N
                (then_compare (second d1 ?= second d2)%N
                   (microsecond d1 ?= microsecond d2)%N))))).

Section SaveRuns.

Context `{E : Engine}.

(** The ways a run of [save] can go. *)
Inductive save_run (w : World) (fig : ref) (name : string) (path : Path)
  : World → outcome Path → Prop :=
| save_run_mkdir t1 e :
    FS.mkdir true true (w_fs w) (w_cwd w) path = (t1, Raise e) →
    save_run w fig name path (with_fs w t1) (Raise e)
| save_run_figure t1 :
    FS.mkdir true true (w_fs w) (w_cwd w) path = (t1, Ok tt) →
    w_figs w !! fig = None →
    save_run w fig name path (with_fs w t1) (Raise (ValueError "not a figure"))
| save_run_write t1 f e :
    FS.mkdir true true (w_fs w) (w_cwd w) path = (t1, Ok tt) →
    w_figs w !! fig = Some f →
    FS.write_text t1 (w_cwd w) (saved_path name path (w_now w)) (saved_html f w)
      = Raise e →
    save_run w fig name path (drawn (with_fs w t1)) (Raise e)
| save_run_ok t1 f t2 :
    FS.mkdir true true (w_fs w) (w_cwd w) path = (t1, Ok tt) →
    w_figs w !! fig = Some f →
    FS.write_text t1 (w_cwd w) (saved_path name path (w_now w)) (saved_html f w)
      = Ok t2 →
    save_run w fig name path
      (with_log (with_fs (drawn w) t2)
         (w_log w ++ ["Saved figure to " +:+
                        path_str (saved_path name path (w_now w))]))
      (Ok (saved_path name path (w_now w))).

End SaveRuns.

(** ** tests/test_functions.py *)

Section Tests.

Context `{E : Engine}.

Local Open Scope py_scope.

(** [LOG.debug] of the test module, whose logger is not the one of
    [plot.functions]: no record of [w_log]. *)
Definition LOG_debug {A : Type} (a : A) : M unit := ret tt.

(** [test_save]; [df] is the frame [pd.DataFrame] makes of the columns
    ["$x$"] and ["$y$"]. The test passes when it returns. *)
Definition test_save (df : DataFrame) : M unit :=
  LOG_debug df ;;;
  fig <- line df "$x$" (Col "$y$") None None None None false
           (Some "Test line plot for saving") false false ;;
  save fig "save_test_img" (parse "output/test/img/") ;;;
  ret tt.

(** [test_style_to_matplotlib]; [df] is the frame of the columns ["x"]
    and ["y"]. *)
Definition test_style_to_matplotlib (df : DataFrame) : M unit :=
  LOG_debug df ;;;
  fig <- line df "x" (Col "y") None None None None false
           (Some "Test Line Plot Matplotlib Style") false false ;;
  style_to_matplotlib fig ;;;
  ret tt.

End Tests.

(** ** Worked inputs *)

(** A figure with styling of its own: another font, a narrow canvas, a left
    margin, a second x axis without a line. *)
Definition fig0 : Figure :=
  {| data := [mkTrace "scatter" {[ "mode" := SStr "lines" ]}];
     layout :=
       {| layout_font := mkFont (Some "Courier") (Some 9%Q) None ∅;
          plot_bgcolor := Some "grey";
          width := Some 100%Q;
          height := None;
          margin := mkMargin (Some 5%Q) (Some 1%Q) None None ∅;
          xaxes := {[ 2%positive :=
                      mkAxis (Some false) None (Some "red") None None empty_font
                        None None None ∅ ]};
          yaxes := ∅;
          title := Some "Test Line Plot";
          scene := empty_scene;
          layout_other := ∅ |} |}.

(** A home directory under a writable root, one figure object, a viewer. *)
Definition fs0 : FS.fs := <[ ["home"] := FS.Dir true ]> (<[ [] := FS.Dir true ]> ∅).

Definition now0 : datetime := mkDatetime 2026 11 3 9 5 7 42.

Definition uuids0 (n : nat) : string :=
  match n with
  | 0 => "div-1"
  | 1 => "div-2"
  | _ => "div-3"
  end.

Definition w0 : World :=
  mkWorld {[ 1%positive := fig0 ]} fs0 ["home"] now0 uuids0 None [] [].

(** One microsecond after [now0]. *)
Definition now1 : datetime := mkDatetime 2026 11 3 9 5 7 43.

(** [w0] with a directory [/tmp], and [w0] with a read-only [/srv]. *)
Definition w_tmp : World := with_fs w0 (<[ ["tmp"] := FS.Dir true ]> fs0).

Definition w_ro : World := with_fs w0 (<[ ["srv"] := FS.Dir false ]> fs0).

(** * Properties *)

(** ** The style adapter *)

Section StyleFacts.

Lemma override_idem {A : Type} (kw old : option A) :
  override kw (override kw old) = override kw old.
Proof. by destruct kw. Qed.

Lemma union_idem_l (kw old : gmap string scalar) : kw ∪ (kw ∪ old) = kw ∪ old.
Proof. by rewrite (assoc_L (∪)), (idemp_L (∪)). Qed.

Lemma update_font_idem (kw old : Font) :
  update_font kw (update_font kw old) = update_font kw old.
Proof.
  unfold update_font; simpl.
  by rewrite !override_idem, union_idem_l.
Qed.

Lemma update_margin_idem (kw old : Margin) :
  update_margin kw (update_margin kw old) = update_margin kw old.
Proof.
  unfold update_margin; simpl.
  by rewrite !override_idem, union_idem_l.
Qed.

Lemma update_axis_idem (kw old : Axis) :
  update_axis kw (update_axis kw old) = update_axis kw old.
Proof.
  unfold update_axis; simpl.
  by rewrite !override_idem, update_font_idem, union_idem_l.
Qed.

Lemma select_axes_primary (axes : gmap positive Axis) :
  is_Some (select_axes axes !! 1%positive).
Proof.
  unfold select_axes.
  destruct (axes !! 1%positive) as [a|] eqn:Ha.
  - rewrite Ha. eauto.
  - rewrite lookup_insert_eq. eauto.
Qed.

Lemma select_axes_fixed (axes : gmap positive Axis) :
  is_Some (axes !! 1%positive) → select_axes axes = axes.
Proof. intros [a Ha]. unfold select_axes. by rewrite Ha. Qed.

Lemma for_each_axis_primary (kw : Axis) (axes : gmap positive Axis) :
  is_Some (for_each_axis kw axes !! 1%positive).
Proof.
  unfold for_each_axis. rewrite lookup_fmap.
  destruct (select_axes_primary axes) as [a ->]. simpl. eauto.
Qed.

Lemma for_each_axis_lookup (kw : Axis) (axes : gmap positive Axis) k a :
  for_each_axis kw axes !! k = Some a → ∃ a0, a = update_axis kw a0.
Proof.
  unfold for_each_axis. rewrite lookup_fmap.
  destruct (select_axes axes !! k) as [a0|]; simpl; [|done].
  intros [= <-]. eauto.
Qed.

Lemma for_each_axis_idem (kw : Axis) (axes : gmap positive Axis) :
  for_each_axis kw (for_each_axis kw axes) = for_each_axis kw axes.
Proof.
  unfold for_each_axis at 1.
  rewrite select_axes_fixed by apply for_each_axis_primary.
  unfold for_each_axis. rewrite <- map_fmap_compose.
  apply map_fmap_ext. intros k a _. simpl. apply update_axis_idem.
Qed.

Lemma update_axes_dict_empty (old : gmap positive Axis) :
  update_axes_dict ∅ old = old.
Proof. unfold update_axes_dict. apply (left_id_L ∅ _). Qed.

Lemma update_scene_empty (old : Scene) : update_scene empty_scene old = old.
Proof.
  destruct old. unfold update_scene; simpl. by rewrite (left_id_L ∅ (∪)).
Qed.

(** The layout of a styled figure, field by field. *)
Lemma styled_layout (f : Figure) :
  layout (styled f) =
  let l := layout f in
  mkLayout (update_font font_dict (layout_font l)) (Some "white")
    (Some 850%Q) (Some 700%Q) (update_margin (margin layout_kwargs) (margin l))
    (for_each_axis xaxes_kwargs (xaxes l)) (for_each_axis yaxes_kwargs (yaxes l))
    (title l) (scene l) (layout_other l).
Proof.
  unfold styled, update_xaxes, update_yaxes, update_layout, set_xaxes, set_yaxes.
  simpl. rewrite !update_axes_dict_empty, update_scene_empty.
  by rewrite (left_id_L ∅ (∪)).
Qed.

Lemma styled_data (f : Figure) : data (styled f) = data f.
Proof. reflexivity. Qed.

Lemma figure_eq (a b : Figure) : data a = data b → layout a = layout b → a = b.
Proof. destruct a, b; simpl; congruence. Qed.

Lemma styled_idem (f : Figure) : styled (styled f) = styled f.
Proof.
  apply figure_eq; [reflexivity|].
  rewrite (styled_layout (styled f)). cbv zeta. rewrite !styled_layout.
  cbv zeta. simpl.
  rewrite !for_each_axis_idem, update_font_idem.
  f_equal. apply update_margin_idem.
Qed.

Lemma themed_axis_update (a0 : Axis) :
  themed_axis (update_axis xaxes_kwargs a0) ∧ themed_axis (update_axis yaxes_kwargs a0).
Proof. repeat split. Qed.

Lemma styled_themed (f : Figure) : themed_layout (layout (styled f)).
Proof.
  rewrite styled_layout. cbv zeta. unfold themed_layout. simpl.
  repeat split; try apply for_each_axis_primary.
  all: match goal with H : for_each_axis _ _ !! _ = Some _ |- _ =>
         apply for_each_axis_lookup in H as [a0 ->] end; reflexivity.
Qed.

(** Running the function: a fresh object holding [styled f] is added to the
    store and nothing else changes. *)
Lemma style_to_matplotlib_run (w : World) (fig : ref) (f : Figure) :
  w_figs w !! fig = Some f →
  style_to_matplotlib fig w =
    (with_figs w (<[fresh (dom (w_figs w)) := styled f]> (w_figs w)),
     Ok (fresh (dom (w_figs w)))).
Proof.
  intros Hf.
  unfold style_to_matplotlib, go_Figure_copy, bind, get_figure, new_figure, mutate, ret.
  rewrite Hf. simpl.
  rewrite !lookup_insert_eq. simpl. rewrite !lookup_insert_eq. simpl.
  rewrite !lookup_insert_eq. simpl.
  unfold with_figs; simpl. rewrite !insert_insert_eq. reflexivity.
Qed.

Lemma fresh_ref_new (w : World) : w_figs w !! fresh (dom (w_figs w)) = None.
Proof. apply not_elem_of_dom, is_fresh. Qed.

End StyleFacts.

(** ** Claims on [style_to_matplotlib] *)

Section StyleClaims.

(** C1. For every figure, [style_to_matplotlib] returns a new figure object:
    its identity is not that of any live object, it holds a copy of the
    input (same traces) with the theme applied, and the input object, like
    every other object and the rest of the world, is exactly as before.
    The copy is independent: a later in-place update of either object
    leaves the other one alone. *)
Theorem style_to_matplotlib_copies (w : World) (fig : ref) (f : Figure) :
  w_figs w !! fig = Some f →
  ∃ fig_styled w',
    style_to_matplotlib fig w = (w', Ok fig_styled) ∧
    w_figs w !! fig_styled = None ∧
    fig_styled ≠ fig ∧
    w_figs w' !! fig_styled = Some (styled f) ∧
    data (styled f) = data f ∧
    themed_layout (layout (styled f)) ∧
    w_figs w' !! fig = Some f ∧
    (∀ r, r ≠ fig_styled → w_figs w' !! r = w_figs w !! r) ∧
    w' = with_figs w (w_figs w') ∧
    (∀ g, w_figs (mutate g fig_styled w').1 !! fig = Some f) ∧
    (∀ g, w_figs (mutate g fig w').1 !! fig_styled = Some (styled f)).
Proof.
  intros Hf.
  set (r := fresh (dom (w_figs w))).
  assert (Hnew : w_figs w !! r = None) by apply fresh_ref_new.
  assert (Hne : r ≠ fig) by (intros ->; congruence).
  exists r, (with_figs w (<[r := styled f]> (w_figs w))).
  split; [by apply style_to_matplotlib_run|].
  split; [done|]. split; [done|].
  split; [apply lookup_insert_eq|].
  split; [reflexivity|].
  split; [apply styled_themed|].
  assert (Hkeep : ∀ r', r' ≠ r →
            w_figs (with_figs w (<[r := styled f]> (w_figs w))) !! r' = w_figs w !! r').
  { intros r' Hr'. simpl. by rewrite lookup_insert_ne. }
  split; [by rewrite Hkeep|].
  split; [exact Hkeep|].
  split; [reflexivity|].
  split; intros g; unfold mutate; simpl.
  - rewrite lookup_insert_eq. simpl.
    rewrite insert_insert_eq, lookup_insert_ne by done. exact Hf.
  - rewrite lookup_insert_ne, Hf by done. simpl.
    rewrite lookup_insert_ne by done. apply lookup_insert_eq.
Qed.

Lemma style_to_matplotlib_copies_witness :
  w_figs w0 !! 1%positive = Some fig0 ∧
  ∃ fig_styled w',
    style_to_matplotlib 1%positive w0 = (w', Ok fig_styled) ∧
    w_figs w0 !! fig_styled = None ∧
    fig_styled ≠ 1%positive ∧
    w_figs w' !! fig_styled = Some (styled fig0) ∧
    data (styled fig0) = data fig0 ∧
    themed_layout (layout (styled fig0)) ∧
    w_figs w' !! 1%positive = Some fig0 ∧
    (∀ r, r ≠ fig_styled → w_figs w' !! r = w_figs w0 !! r) ∧
    w' = with_figs w0 (w_figs w') ∧
    (∀ g, w_figs (mutate g fig_styled w').1 !! 1%positive = Some fig0) ∧
    (∀ g, w_figs (mutate g 1%positive w').1 !! fig_styled = Some (styled fig0)).
Proof.
  split; [reflexivity|].
  apply (style_to_matplotlib_copies w0 1%positive fig0). reflexivity.
Defined.

(** C2. Styling is idempotent on the visual properties: styling the styled
    figure gives a figure with the same layout, hence the same cosmetic
    settings (in fact the same figure value), as styling once. *)
Theorem style_to_matplotlib_idempotent (w : World) (fig : ref) (f : Figure) :
  w_figs w !! fig = Some f →
  ∃ once w1 twice w2 f1 f2,
    style_to_matplotlib fig w = (w1, Ok once) ∧
    style_to_matplotlib once w1 = (w2, Ok twice) ∧
    w_figs w1 !! once = Some f1 ∧
    w_figs w2 !! twice = Some f2 ∧
    layout f2 = layout f1 ∧
    cosmetics (layout f2) = cosmetics (layout f1) ∧
    f2 = f1.
Proof.
  intros Hf.
  pose proof (style_to_matplotlib_run w fig f Hf) as H1.
  set (once := fresh (dom (w_figs w))) in *.
  set (w1 := with_figs w (<[once := styled f]> (w_figs w))) in *.
  assert (Hf1 : w_figs w1 !! once = Some (styled f)) by apply lookup_insert_eq.
  pose proof (style_to_matplotlib_run w1 once (styled f) Hf1) as H2.
  eexists once, w1, _, _, (styled f), (styled (styled f)).
  split; [exact H1|]. split; [exact H2|]. split; [exact Hf1|].
  split; [apply lookup_insert_eq|].
  rewrite styled_idem. done.
Qed.

Lemma style_to_matplotlib_idempotent_witness :
  w_figs w0 !! 1%positive = Some fig0 ∧
  ∃ once w1 twice w2 f1 f2,
    style_to_matplotlib 1%positive w0 = (w1, Ok once) ∧
    style_to_matplotlib once w1 = (w2, Ok twice) ∧
    w_figs w1 !! once = Some f1 ∧
    w_figs w2 !! twice = Some f2 ∧
    layout f2 = layout f1 ∧
    cosmetics (layout f2) = cosmetics (layout f1) ∧
    f2 = f1.
Proof.
  split; [reflexivity|].
  apply (style_to_matplotlib_idempotent w0 1%positive fig0). reflexivity.
Defined.

Lemma styled_cosmetics (f : Figure) :
  cosmetics (layout (styled f)) =
  (Some "Arial", Some 26%Q, Some "black", Some "white", Some 850%Q, Some 700%Q,
   Some 20%Q, Some 20%Q, Some 10%Q,
   Some (axis_cosmetics xaxes_kwargs), Some (axis_cosmetics yaxes_kwargs)).
Proof.
  rewrite styled_layout. cbv zeta. unfold cosmetics. simpl.
  destruct (for_each_axis_primary xaxes_kwargs (xaxes (layout f))) as [ax Hx].
  destruct (for_each_axis_primary yaxes_kwargs (yaxes (layout f))) as [ay Hy].
  rewrite Hx, Hy.
  apply for_each_axis_lookup in Hx as [ax0 ->].
  apply for_each_axis_lookup in Hy as [ay0 ->].
  reflexivity.
Qed.

(** C9. Whatever the styling of the input, the returned figure carries
    exactly the constants of the theme (Arial 26 black; white background;
    850 by 700; margins r 20, t 20, b 10; every x and y axis, the
    unsuffixed ones included, with its line shown, black line and ticks of
    width 2.4, ticks outside, mirrored as allticks), so the outputs for any
    two inputs agree on all of these settings. *)
Theorem style_to_matplotlib_fixed_theme (w w' : World) (fig fig' : ref)
  (f f' : Figure) :
  w_figs w !! fig = Some f →
  w_figs w' !! fig' = Some f' →
  ∃ r v g r' v' g',
    style_to_matplotlib fig w = (v, Ok r) ∧ w_figs v !! r = Some g ∧
    style_to_matplotlib fig' w' = (v', Ok r') ∧ w_figs v' !! r' = Some g' ∧
    themed_layout (layout g) ∧
    themed_layout (layout g') ∧
    cosmetics (layout g) = cosmetics (layout g').
Proof.
  intros Hf Hf'.
  eexists _, _, (styled f), _, _, (styled f').
  split; [by apply style_to_matplotlib_run|].
  split; [apply lookup_insert_eq|].
  split; [by apply style_to_matplotlib_run|].
  split; [apply lookup_insert_eq|].
  split; [apply styled_themed|].
  split; [apply styled_themed|].
  by rewrite !styled_cosmetics.
Qed.

Lemma style_to_matplotlib_fixed_theme_witness :
  w_figs w0 !! 1%positive = Some fig0 ∧
  w_figs (with_figs w0 {[ 5%positive := mkFigure [] empty_layout ]}) !! 5%positive
    = Some (mkFigure [] empty_layout) ∧
  ∃ r v g r' v' g',
    style_to_matplotlib 1%positive w0 = (v, Ok r) ∧ w_figs v !! r = Some g ∧
    style_to_matplotlib 5%positive
      (with_figs w0 {[ 5%positive := mkFigure [] empty_layout ]}) = (v', Ok r') ∧
    w_figs v' !! r' = Some g' ∧
    themed_layout (layout g) ∧
    themed_layout (layout g') ∧
    cosmetics (layout g) = cosmetics (layout g').
Proof.
  split; [reflexivity|]. split; [reflexivity|].
  apply (style_to_matplotlib_fixed_theme w0
           (with_figs w0 {[ 5%positive := mkFigure [] empty_layout ]})
           1%positive 5%positive fig0 (mkFigure [] empty_layout));
    reflexivity.
Defined.

End StyleClaims.

(** ** Claims on the builders *)

Section BuilderClaims.

Context `{E : Engine}.

Lemma present_raise (e : exn) (show : bool) (w : World) :
  present (Raise e) show w = (w, Raise e).
Proof. reflexivity. Qed.

Lemma present_quiet (f : Figure) (w : World) :
  present (Ok f) false w =
    (with_figs w (<[fresh (dom (w_figs w)) := f]> (w_figs w)),
     Ok (fresh (dom (w_figs w)))).
Proof. reflexivity. Qed.

Lemma present_show (f : Figure) (w : World) :
  present (Ok f) true w =
    let r := fresh (dom (w_figs w)) in
    let w1 := with_figs w (<[r := f]> (w_figs w)) in
    match w_viewer w with
    | None => (with_shown w1 (w_shown w ++ [f]), Ok r)
    | Some e => (w1, Raise e)
    end.
Proof.
  unfold present, bind, lift, new_figure, show_figure, get_figure, ret, bind.
  simpl. rewrite lookup_insert_eq. simpl.
  destruct (w_viewer w); reflexivity.
Qed.

Lemma present_builds (f : Figure) (show : bool) (w : World) :
  builds (present (Ok f) show) f show w.
Proof.
  unfold builds. cbv zeta.
  split; [apply fresh_ref_new|].
  split; [intros ->; apply present_quiet|].
  split; [intros -> Hv; rewrite present_show; cbv zeta; by rewrite Hv|].
  split; [intros -> e Hv; rewrite present_show; cbv zeta; by rewrite Hv|].
  destruct show; [done|]. rewrite present_quiet. simpl. done.
Qed.

Lemma present_propagates (o : outcome Figure) (show : bool) (w : World) :
  propagates (present o show) o show w.
Proof.
  split.
  - intros e ->. apply present_raise.
  - intros e. destruct o as [f|e0].
    + destruct show.
      * rewrite present_show. cbv zeta.
        destruct (w_viewer w) as [e1|] eqn:Hv; simpl; [|done].
        intros [= ->]. right. eauto.
      * rewrite present_quiet. simpl. done.
    + rewrite present_raise. simpl. intros [= ->]. by left.
Qed.

Lemma line_present df x y fc fr x_error y_error markers title show dark :
  line df x y fc fr x_error y_error markers title show dark =
  present (px_line df x y title x_error y_error markers fc fr
             (if dark then "plotly_dark" else "plotly")) show.
Proof. reflexivity. Qed.

Lemma scatter_present df x y c s m fc fr x_error y_error title show :
  scatter df x y c s m fc fr x_error y_error title show =
  present (px_scatter df x y c m s title x_error y_error fc fr) show.
Proof. reflexivity. Qed.

Lemma scatter3_present df x y z c s m x_error y_error z_error title show :
  scatter3 df x y z c s m x_error y_error z_error title show =
  present (px_scatter_3d df x y z c m s title x_error y_error z_error) show.
Proof. reflexivity. Qed.

Lemma surface_present x y z title title_x title_y title_z show (w : World) :
  surface x y z title title_x title_y title_z show w =
  present (outcome_map (surface_figure title title_x title_y title_z)
             (go_Surface z x y)) show w.
Proof.
  unfold surface, present, go_Figure, surface_figure, bind, lift, mutate,
    new_figure, ret.
  destruct (go_Surface z x y) as [t|e]; simpl; [|reflexivity].
  rewrite !lookup_insert_eq. simpl. rewrite !lookup_insert_eq. simpl.
  unfold with_figs; simpl. rewrite !insert_insert_eq. reflexivity.
Qed.

(** C6. No builder validates its inputs itself: when the engine raises (a
    missing column, mismatched row counts, any invalid selection), [line],
    [scatter], [scatter3] and [surface] raise that same error, in the world
    as it was (no figure object, no display); and no error comes out of a
    builder other than the engine's and, with the display flag set, the
    viewer's. *)
Theorem builders_propagate_errors
  (df : DataFrame) (x : string) (y : columns) (y3 : string) (z3 : columns)
  (c s m fc fr x_error y_error z_error title title_x title_y title_z : option string)
  (markers show dark : bool) (sx sy sz : Array) (w : World) :
  propagates (line df x y fc fr x_error y_error markers title show dark)
    (px_line df x y title x_error y_error markers fc fr
       (if dark then "plotly_dark" else "plotly")) show w ∧
  propagates (scatter df x y c s m fc fr x_error y_error title show)
    (px_scatter df x y c m s title x_error y_error fc fr) show w ∧
  propagates (scatter3 df x y3 z3 c s m x_error y_error z_error title show)
    (px_scatter_3d df x y3 z3 c m s title x_error y_error z_error) show w ∧
  propagates (surface sx sy sz title title_x title_y title_z show)
    (outcome_map (surface_figure title title_x title_y title_z)
       (go_Surface sz sx sy)) show w.
Proof.
  rewrite line_present, scatter_present, scatter3_present.
  split; [|split; [|split]]; try apply present_propagates.
  unfold propagates. rewrite surface_present. apply present_propagates.
Qed.

(** C7. Every builder returns the figure it constructed, as a new object,
    and hands it to the viewer if and only if its display flag is true:
    with the flag false the world changes by that new object alone and the
    object is the whole result; with the flag true the figure is shown
    (or the viewer's error comes out). *)
Theorem builders_return_and_show
  (df : DataFrame) (x : string) (y : columns) (y3 : string) (z3 : columns)
  (c s m fc fr x_error y_error z_error title title_x title_y title_z : option string)
  (markers show dark : bool) (sx sy sz : Array) (w : World) :
  (∀ f, px_line df x y title x_error y_error markers fc fr
          (if dark then "plotly_dark" else "plotly") = Ok f →
        builds (line df x y fc fr x_error y_error markers title show dark) f show w) ∧
  (∀ f, px_scatter df x y c m s title x_error y_error fc fr = Ok f →
        builds (scatter df x y c s m fc fr x_error y_error title show) f show w) ∧
  (∀ f, px_scatter_3d df x y3 z3 c m s title x_error y_error z_error = Ok f →
        builds (scatter3 df x y3 z3 c s m x_error y_error z_error title show) f show w) ∧
  (∀ t, go_Surface sz sx sy = Ok t →
        builds (surface sx sy sz title title_x title_y title_z show)
          (surface_figure title title_x title_y title_z t) show w).
Proof.
  rewrite line_present, scatter_present, scatter3_present.
  split; [|split; [|split]]; intros f Hf; try (rewrite Hf; apply present_builds).
  unfold builds. rewrite surface_present, Hf. apply present_builds.
Qed.

End BuilderClaims.

Lemma builders_propagate_errors_witness :
  line (E := toy_engine) ["x"; "y"] "x" (Col "mass") None None None None false
    None true false w0
  = (w0, Raise (EngineError "column not in data frame")).
Proof.
  exact (proj1 (proj1 (builders_propagate_errors (E := toy_engine)
    ["x"; "y"] "x" (Col "mass") "y" (Col "z") None None None None None None
    None None None None None None false true false [] [] [] w0)) _ eq_refl).
Defined.

Lemma builders_return_and_show_witness :
  builds (line (E := toy_engine) ["x"; "y"] "x" (Col "y") None None None None
            false None true false)
    (toy_figure "scatter" (Col "y")) true w0.
Proof.
  exact (proj1 (builders_return_and_show (E := toy_engine)
    ["x"; "y"] "x" (Col "y") "y" (Col "z") None None None None None None
    None None None None None None false true false [] [] [] w0) _ eq_refl).
Defined.

(** ** Strings, paths and timestamps *)

Section StringFacts.

Lemma append_nil_l (a : string) : "" +:+ a = a.
Proof. reflexivity. Qed.

Lemma append_cons (x : ascii) (a b : string) : String x a +:+ b = String x (a +:+ b).
Proof. reflexivity. Qed.

Lemma append_nil_r (s : string) : s +:+ "" = s.
Proof. induction s as [|c s IH]; [done|]. by rewrite append_cons, IH. Qed.

Lemma append_assoc (a b c : string) : (a +:+ b) +:+ c = a +:+ b +:+ c.
Proof. induction a as [|x a IH]; [done|]. by rewrite !append_cons, IH. Qed.

Lemma length_append (a b : string) :
  String.length (a +:+ b) = String.length a + String.length b.
Proof. induction a as [|x a IH]; [done|]. rewrite append_cons. simpl. by rewrite IH. Qed.

(** Two concatenations with left parts of one length agree part by part. *)
Lemma append_inj_length (a b c d : string) :
  String.length a = String.length b →
  a +:+ c = b +:+ d → a = b ∧ c = d.
Proof.
  revert b. induction a as [|x a IH]; intros [|y b] Hlen H; try discriminate.
  - done.
  - rewrite !append_cons in H. injection H as -> H. injection Hlen as Hlen.
    destruct (IH b Hlen H) as [-> ->]. done.
Qed.

Lemma append_snoc_inj (a b : string) (x y : ascii) :
  a +:+ String x "" = b +:+ String y "" → a = b ∧ x = y.
Proof.
  revert b. induction a as [|u a IH]; intros [|v b] H;
    rewrite ?append_cons, ?append_nil_l in H.
  - by injection H as ->.
  - injection H as -> H. destruct b; discriminate.
  - injection H as -> H. destruct a; discriminate.
  - injection H as -> H. destruct (IH b H) as [-> ->]. done.
Qed.

End StringFacts.

Section PathFacts.

Lemma split_sep_nonempty (s : string) : split_sep s ≠ [].
Proof.
  induction s as [|c s IH]; cbn; [done|].
  destruct (is_sep c); [done|]. by destruct (split_sep s).
Qed.

(** Appending text without a separator extends the last piece. *)
Lemma split_sep_append (s r : string) :
  no_sep r →
  split_sep (s +:+ r) = removelast (split_sep s) ++ [List.last (split_sep s) "" +:+ r].
Proof.
  intros Hr. induction s as [|c s IH]; [exact Hr|].
  rewrite append_cons. cbn [split_sep].
  pose proof (split_sep_nonempty s) as Hne.
  destruct (is_sep c).
  - rewrite IH. destruct (split_sep s) as [|h t]; [done|]. reflexivity.
  - rewrite IH. destruct (split_sep s) as [|h t]; [done|].
    destruct t as [|h' t]; reflexivity.
Qed.

Lemma no_sep_append (a b : string) : no_sep a → no_sep b → no_sep (a +:+ b).
Proof.
  intros Ha Hb. unfold no_sep. rewrite split_sep_append by done.
  by rewrite Ha.
Qed.

Lemma no_sep_cons (c : ascii) (s : string) :
  is_sep c = false → no_sep s → no_sep (String c s).
Proof. intros Hc Hs. unfold no_sep. cbn. by rewrite Hc, Hs. Qed.

Lemma no_sep_inv (c : ascii) (s : string) :
  no_sep (String c s) → is_sep c = false ∧ no_sep s.
Proof.
  unfold no_sep. cbn. destruct (is_sep c).
  - intros [=].
  - pose proof (split_sep_nonempty s). destruct (split_sep s) as [|h t]; [done|].
    intros [= -> ->]. done.
Qed.

Lemma splitroot_no_sep (s : string) : no_sep s → splitroot s = (NoRoot, s).
Proof.
  destruct s as [|c s]; [done|].
  intros [Hc _]%no_sep_inv. cbn. by rewrite Hc.
Qed.

(** The root of a string is decided before a suffix that starts with
    another character than the separator. *)
Lemma splitroot_append (s : string) (c : ascii) (r : string) :
  is_sep c = false →
  splitroot (s +:+ String c r) =
    ((splitroot s).1, (splitroot s).2 +:+ String c r).
Proof.
  intros Hc.
  destruct s as [|c1 [|c2 [|c3 s]]]; rewrite ?append_cons, ?append_nil_l; cbn.
  - by rewrite Hc.
  - destruct (is_sep c1); [by rewrite Hc|done].
  - destruct (is_sep c1); [|done]. destruct (is_sep c2); [by rewrite Hc|done].
  - destruct (is_sep c1); [|done]. destruct (is_sep c2); [|done].
    by destruct (is_sep c3).
Qed.

Lemma keeps_append_cons (l : string) (c : ascii) (r : string) :
  c ≠ "."%char → keeps (l +:+ String c r) = true.
Proof.
  intros Hc. unfold keeps.
  destruct l as [|x [|y l]]; rewrite ?append_cons, ?append_nil_l; cbn.
  - destruct (Ascii.eqb_spec c "."); [done|]. reflexivity.
  - destruct (Ascii.eqb x "."); reflexivity.
  - destruct (Ascii.eqb x "."); reflexivity.
Qed.

(** The parts of a parsed [name + suffix], for a suffix without separator
    that starts with a character other than ["/"] and ["."]: the suffix
    extends the last piece of [name]; the pieces before it are filtered. *)
Lemma parse_append (name : string) (c : ascii) (r : string) :
  is_sep c = false → c ≠ "."%char → no_sep r →
  parse (name +:+ String c r) =
    mkPath (splitroot name).1
      (List.filter keeps (removelast (split_sep (splitroot name).2)) ++
       [List.last (split_sep (splitroot name).2) "" +:+ String c r]).
Proof.
  intros Hc Hdot Hr. unfold parse.
  rewrite splitroot_append by done.
  rewrite split_sep_append by (by apply no_sep_cons).
  rewrite List.filter_app. cbn [List.filter].
  by rewrite keeps_append_cons.
Qed.

Lemma parse_append_no_sep (name : string) (c : ascii) (r : string) :
  no_sep name → is_sep c = false → c ≠ "."%char → no_sep r →
  parse (name +:+ String c r) = mkPath NoRoot [name +:+ String c r].
Proof.
  intros Hn Hc Hdot Hr. rewrite parse_append by done.
  rewrite splitroot_no_sep by done. simpl. by rewrite Hn.
Qed.

End PathFacts.

Section TimestampFacts.

Lemma digit_in (d : N) : digit d ∈ digits.
Proof.
  unfold digit. apply list_elem_of_In.
  destruct (nth_in_or_default (N.to_nat d) digits "0"%char) as [H | ->]; [done|].
  cbn. auto.
Qed.

Lemma is_digit_digit (d : N) : is_digit (digit d) = true.
Proof. unfold is_digit. apply bool_decide_eq_true, digit_in. Qed.

Lemma digit_no_sep (d : N) : is_sep (digit d) = false.
Proof.
  pose proof (digit_in d) as H. unfold digits in H.
  repeat (apply elem_of_cons in H; destruct H as [Heq|H]; [by rewrite Heq|]).
  by apply elem_of_nil in H.
Qed.

Lemma digit_inj (a b : N) : (a < 10)%N → (b < 10)%N → digit a = digit b → a = b.
Proof.
  intros Ha Hb H. unfold digit in H.
  apply N2Nat.inj.
  apply (proj1 (NoDup_nth digits "0"%char)); [|cbn; lia..|done].
  unfold digits. repeat constructor; cbn; intuition discriminate.
Qed.

Lemma padded_length (w : nat) (n : N) : String.length (padded w n) = w.
Proof.
  revert n. induction w as [|w IH]; intros n; [done|].
  cbn [padded]. rewrite length_append, IH. simpl. lia.
Qed.

Lemma padded_no_sep (w : nat) (n : N) : no_sep (padded w n).
Proof.
  revert n. induction w as [|w IH]; intros n; [done|].
  cbn [padded]. apply no_sep_append; [apply IH|].
  apply no_sep_cons; [apply digit_no_sep|done].
Qed.

Lemma padded_inj (w : nat) (n m : N) :
  (n < 10 ^ N.of_nat w)%N → (m < 10 ^ N.of_nat w)%N →
  padded w n = padded w m → n = m.
Proof.
  revert n m. induction w as [|w IH]; intros n m Hn Hm H.
  - change (10 ^ N.of_nat 0)%N with 1%N in *. lia.
  - cbn [padded] in H. apply append_snoc_inj in H as [H1 H2].
    rewrite Nat2N.inj_succ, N.pow_succ_r' in Hn, Hm.
    apply digit_inj in H2; [|by apply N.mod_lt..].
    apply IH in H1; [|apply N.Div0.div_lt_upper_bound; lia..].
    rewrite (N.Div0.div_mod n 10), (N.Div0.div_mod m 10). congruence.
Qed.

(** *** The year *)

Lemma pow10_succ (k : nat) : (10 ^ N.of_nat (S k) = 10 * 10 ^ N.of_nat k)%N.
Proof. by rewrite Nat2N.inj_succ, N.pow_succ_r'. Qed.

Lemma pow10_pos (k : nat) : (0 < 10 ^ N.of_nat k)%N.
Proof. apply N.neq_0_lt_0, N.pow_nonzero. discriminate. Qed.

(** A number of [S k] decimal digits is printed as these digits. *)
Lemma decimal_fuel_padded (k : nat) :
  ∀ (fuel : nat) (n : N),
    k < fuel →
    k = 0 ∨ (10 ^ N.of_nat k <= n)%N →
    (n < 10 ^ N.of_nat (S k))%N →
    decimal_fuel fuel n = padded (S k) n.
Proof.
  induction k as [|k IH]; intros [|fuel] n Hfuel Hlo Hhi; try lia.
  - change (10 ^ N.of_nat 1)%N with 10%N in Hhi.
    cbn [decimal_fuel padded]. rewrite (proj2 (N.ltb_lt n 10) Hhi).
    by rewrite append_nil_l, N.mod_small.
  - destruct Hlo as [Hlo|Hlo]; [lia|].
    rewrite pow10_succ in Hlo. rewrite (pow10_succ (S k)) in Hhi.
    pose proof (pow10_pos k) as Hpos.
    cbn [decimal_fuel]. rewrite (proj2 (N.ltb_ge n 10)) by lia.
    rewrite (IH fuel (n / 10)%N); [reflexivity|lia| |].
    + right. apply N.div_le_lower_bound; [discriminate|done].
    + apply N.Div0.div_lt_upper_bound. done.
Qed.

(** The years of a [datetime] have one to four digits. *)
Lemma decimal_width (n : N) :
  (n < 10000)%N →
  ∃ k, k ≤ 3 ∧ decimal n = padded (S k) n ∧ (n < 10 ^ N.of_nat (S k))%N.
Proof.
  intros Hn. unfold decimal.
  destruct (N.lt_ge_cases n 10) as [H1|H1].
  { exists 0. split; [lia|]. split; [|done].
    apply decimal_fuel_padded; [lia|by left|done]. }
  destruct (N.lt_ge_cases n 100) as [H2|H2].
  { exists 1. split; [lia|]. split; [|done].
    pose proof (N.log2_le_mono 10 n H1) as Hl. change (N.log2 10) with 3%N in Hl.
    apply decimal_fuel_padded; [lia|by right|done]. }
  destruct (N.lt_ge_cases n 1000) as [H3|H3].
  { exists 2. split; [lia|]. split; [|done].
    pose proof (N.log2_le_mono 100 n H2) as Hl. change (N.log2 100) with 6%N in Hl.
    apply decimal_fuel_padded; [lia|by right|done]. }
  exists 3. split; [lia|]. split; [|done].
  pose proof (N.log2_le_mono 1000 n H3) as Hl. change (N.log2 1000) with 9%N in Hl.
  apply decimal_fuel_padded; [lia|by right|done].
Qed.

(** From the year 1000 on the year has its four digits. *)
Lemma decimal_four (n : N) : (1000 <= n <= 9999)%N → decimal n = padded 4 n.
Proof.
  intros [Hlo Hhi]. unfold decimal.
  pose proof (N.log2_le_mono 1000 n Hlo) as Hl. change (N.log2 1000) with 9%N in Hl.
  apply decimal_fuel_padded; [lia|by right|].
  change (10 ^ N.of_nat 4)%N with 10000%N. lia.
Qed.

Lemma decimal_fuel_no_sep (fuel : nat) (n : N) : no_sep (decimal_fuel fuel n).
Proof.
  revert n. induction fuel as [|fuel IH]; intros n; [done|].
  cbn [decimal_fuel]. destruct (n <? 10)%N.
  - apply no_sep_cons; [apply digit_no_sep|done].
  - apply no_sep_append; [apply IH|].
    apply no_sep_cons; [apply digit_no_sep|done].
Qed.

Lemma decimal_inj (n m : N) :
  (n < 10000)%N → (m < 10000)%N → decimal n = decimal m → n = m.
Proof.
  intros Hn Hm H.
  destruct (decimal_width n Hn) as (k1 & _ & E1 & B1).
  destruct (decimal_width m Hm) as (k2 & _ & E2 & B2).
  rewrite E1, E2 in H.
  assert (k1 = k2) as ->.
  { apply (f_equal String.length) in H. rewrite !padded_length in H. lia. }
  by apply (padded_inj (S k2)).
Qed.

(** *** The timestamp *)

(** The timestamp of [save], field by field. *)
Lemma strftime_stamp (d : datetime) :
  strftime d stamp_format =
    decimal (year d) +:+ "-" +:+ padded 2 (month d) +:+ "-" +:+
    padded 2 (day d) +:+ "_" +:+ padded 2 (hour d) +:+ "-" +:+
    padded 2 (minute d) +:+ "-" +:+ padded 2 (second d) +:+ "-" +:+
    padded 6 (microsecond d).
Proof.
  unfold stamp_format. cbn [strftime Ascii.eqb Bool.eqb directive].
  rewrite append_nil_r. reflexivity.
Qed.

(** The timestamp at a reading from the year 1000 on. *)
Lemma strftime_stamp_four (d : datetime) :
  valid d → (1000 <= year d)%N →
  strftime d stamp_format =
    padded 4 (year d) +:+ "-" +:+ padded 2 (month d) +:+ "-" +:+
    padded 2 (day d) +:+ "_" +:+ padded 2 (hour d) +:+ "-" +:+
    padded 2 (minute d) +:+ "-" +:+ padded 2 (second d) +:+ "-" +:+
    padded 6 (microsecond d).
Proof.
  intros Hv Hy. rewrite strftime_stamp, decimal_four; [done|].
  destruct Hv as [[_ Hhi] _]. lia.
Qed.

Lemma strftime_stamp_no_sep (d : datetime) : no_sep (strftime d stamp_format).
Proof.
  rewrite strftime_stamp.
  apply no_sep_append; [apply decimal_fuel_no_sep|].
  repeat first
    [ apply padded_no_sep
    | apply no_sep_append; [apply padded_no_sep|]
    | rewrite append_cons, append_nil_l; apply no_sep_cons; [reflexivity|] ].
Qed.

Lemma strftime_stamp_length (d : datetime) :
  valid d → (1000 <= year d)%N →
  String.length (strftime d stamp_format) = 26.
Proof.
  intros Hv Hy. rewrite strftime_stamp_four by done.
  rewrite !length_append, !padded_length. reflexivity.
Qed.

Lemma strftime_stamp_shape (d : datetime) :
  valid d → (1000 <= year d)%N →
  has_shape "dddd-dd-dd_dd-dd-dd-dddddd" (strftime d stamp_format) = true.
Proof.
  intros Hv Hy. rewrite strftime_stamp_four by done.
  cbn [padded]. rewrite !append_nil_l, ?append_assoc.
  rewrite ?append_cons, ?append_nil_l.
  cbn [has_shape Ascii.eqb Bool.eqb].
  rewrite ?append_cons, ?append_nil_l.
  cbn [has_shape Ascii.eqb Bool.eqb andb].
  rewrite !is_digit_digit. reflexivity.
Qed.

(** Distinct valid readings of the clock give distinct timestamps: the
    year is the one field of variable width, and the rest has 22
    characters. *)
Lemma strftime_stamp_inj (d1 d2 : datetime) :
  valid d1 → valid d2 →
  strftime d1 stamp_format = strftime d2 stamp_format → d1 = d2.
Proof.
  intros (Hy1 & Hm1 & Hd1 & HH1 & HM1 & HS1 & Hf1) (Hy2 & Hm2 & Hd2 & HH2 & HM2 & HS2 & Hf2).
  rewrite !strftime_stamp. intros H.
  destruct (decimal_width (year d1)) as (k1 & _ & E1 & B1); [lia|].
  destruct (decimal_width (year d2)) as (k2 & _ & E2 & B2); [lia|].
  rewrite E1, E2 in H.
  assert (k1 = k2) as ->.
  { apply (f_equal String.length) in H.
    rewrite !length_append, !padded_length in H. simpl in H. lia. }
  do 12 (apply append_inj_length in H as [? H];
         [|by rewrite ?padded_length]).
  destruct d1, d2; cbn [year month day hour minute second microsecond] in *.
  f_equal; [by apply (padded_inj (S k2))|
            (eapply padded_inj; [| |eassumption]); simpl; lia..].
Qed.

End TimestampFacts.

(** ** The file system *)

Section FSFacts.

Import FS.

Lemma fs_lookup_insert_eq (t : fs) (k : list string) (n : node) :
  <[k := n]> t !! k = Some n.
Proof. unfold lookup, insert, fs_lookup, fs_insert. by rewrite decide_True. Qed.

Lemma fs_lookup_insert_ne (t : fs) (k k' : list string) (n : node) :
  k ≠ k' → <[k := n]> t !! k' = t !! k'.
Proof.
  intros Hne. unfold lookup, insert, fs_lookup, fs_insert.
  by rewrite decide_False by done.
Qed.

Lemma keeps_nodes_dirs (t t' : fs) : keeps_nodes t t' → keeps_dirs t t'.
Proof. intros H k w. apply H. Qed.

Lemma keeps_nodes_refl (t : fs) : keeps_nodes t t.
Proof. by intros k n. Qed.

Lemma keeps_nodes_trans (t1 t2 t3 : fs) :
  keeps_nodes t1 t2 → keeps_nodes t2 t3 → keeps_nodes t1 t3.
Proof. intros H1 H2 k n Hk. by apply H2, H1. Qed.

Lemma keeps_dirs_trans (t1 t2 t3 : fs) :
  keeps_dirs t1 t2 → keeps_dirs t2 t3 → keeps_dirs t1 t3.
Proof. intros H1 H2 k n Hk. by apply H2, H1. Qed.

Lemma keeps_nodes_insert_new (t : fs) k n : t !! k = None → keeps_nodes t (<[k := n]> t).
Proof.
  intros Hk k' n' Hk'. rewrite fs_lookup_insert_ne; [done|]. congruence.
Qed.

Lemma keeps_dirs_insert_file (t : fs) k s :
  (∀ w, t !! k ≠ Some (Dir w)) → keeps_dirs t (<[k := File s]> t).
Proof.
  intros Hk k' w Hk'. rewrite fs_lookup_insert_ne; [done|].
  intros ->. by eapply Hk.
Qed.

Lemma lookup_dir_app (t : fs) cur a b :
  lookup_dir t cur (a ++ b) =
    match lookup_dir t cur a with
    | Ok d => lookup_dir t d b
    | Raise e => Raise e
    end.
Proof.
  revert cur. induction a as [|c a IH]; intros cur; [done|].
  simpl. destruct (t !! step cur c) as [[s|w]|]; [done| |done]. apply IH.
Qed.

(** A resolution that succeeds is not disturbed by new nodes. *)
Lemma lookup_dir_keeps (t t' : fs) cur cs d :
  keeps_dirs t t' → lookup_dir t cur cs = Ok d → lookup_dir t' cur cs = Ok d.
Proof.
  intros Hk. revert cur. induction cs as [|c cs IH]; intros cur; [done|].
  simpl. destruct (t !! step cur c) as [[s|w]|] eqn:Hc; [done| |done].
  rewrite (Hk _ _ Hc). apply IH.
Qed.

Lemma locate_snoc (t : fs) cwd a ps c :
  locate t cwd (mkPath a (ps ++ [c])) =
    match lookup_dir t (start cwd (mkPath a ps)) ps with
    | Ok d => Ok (d, step d c)
    | Raise e => Raise e
    end.
Proof.
  unfold locate. simpl. rewrite removelast_last, last_last.
  destruct (ps ++ [c]) eqn:H; [by destruct ps|]. reflexivity.
Qed.

Lemma locate_keeps (t t' : fs) cwd p d k :
  keeps_dirs t t' → locate t cwd p = Ok (d, k) → locate t' cwd p = Ok (d, k).
Proof.
  intros Hk. unfold locate. destruct (parts p) as [|c ps]; [done|].
  destruct (lookup_dir t _ _) as [d'|e] eqn:Hd; [|done].
  by rewrite (lookup_dir_keeps _ _ _ _ _ Hk Hd).
Qed.

Lemma is_dir_true (t : fs) cwd p :
  is_dir t cwd p = true ↔
  ∃ d k w, locate t cwd p = Ok (d, k) ∧ t !! k = Some (Dir w).
Proof.
  unfold is_dir. split.
  - destruct (locate t cwd p) as [[d k]|e]; [|done].
    destruct (t !! k) as [[s|w]|] eqn:Hk; try done. eauto.
  - intros (d & k & w & -> & ->). done.
Qed.

Lemma is_dir_keeps (t t' : fs) cwd p :
  keeps_dirs t t' → is_dir t cwd p = true → is_dir t' cwd p = true.
Proof.
  intros Hk (d & k & w & Hl & Hd)%is_dir_true. apply is_dir_true.
  exists d, k, w. split; [by eapply locate_keeps|by apply Hk].
Qed.


(** *** [os.mkdir] and [Path.mkdir] *)

Lemma os_mkdir_ok (t t' : fs) cwd p :
  os_mkdir t cwd p = Ok t' →
  ∃ d k, locate t cwd p = Ok (d, k) ∧ t !! k = None ∧
         t !! d = Some (Dir true) ∧ t' = <[k := Dir true]> t.
Proof.
  unfold os_mkdir. destruct (locate t cwd p) as [[d k]|e]; [|done].
  destruct (t !! k) eqn:Hk; [done|].
  destruct (t !! d) as [[s|[]]|] eqn:Hd; try done.
  intros [= <-]. eauto 6.
Qed.

Lemma os_mkdir_post (t t' : fs) cwd p :
  os_mkdir t cwd p = Ok t' → keeps_nodes t t' ∧ is_dir t' cwd p = true.
Proof.
  intros (d & k & Hl & Hk & Hd & ->)%os_mkdir_ok.
  pose proof (keeps_nodes_insert_new t k (Dir true) Hk) as Hkeep.
  split; [done|]. apply is_dir_true. exists d, k, true.
  split; [|apply fs_lookup_insert_eq].
  eapply locate_keeps; [|done]. by apply keeps_nodes_dirs.
Qed.

Lemma mkdir_exists_post (exist_ok : bool) (t t' : fs) cwd p e :
  mkdir_exists exist_ok t cwd p e = (t', Ok tt) →
  t' = t ∧ is_dir t cwd p = true.
Proof.
  unfold mkdir_exists.
  destruct exist_ok; simpl; [|done].
  destruct (is_dir t cwd p); simpl; [|done]. by intros [= <-].
Qed.

Lemma mkdir_here_post (exist_ok : bool) (t t' : fs) cwd p :
  mkdir_here exist_ok t cwd p = (t', Ok tt) →
  keeps_nodes t t' ∧ is_dir t' cwd p = true.
Proof.
  unfold mkdir_here. destruct (os_mkdir t cwd p) as [t1|e] eqn:Hos.
  - intros [= <-]. by apply os_mkdir_post.
  - destruct (is_FileNotFoundError e); [done|].
    intros [-> H]%mkdir_exists_post. split; [apply keeps_nodes_refl|done].
Qed.

Lemma mkdir_here_keeps (exist_ok : bool) (t t' : fs) cwd p o :
  mkdir_here exist_ok t cwd p = (t', o) → keeps_nodes t t'.
Proof.
  unfold mkdir_here. destruct (os_mkdir t cwd p) as [t1|e] eqn:Hos.
  - intros [= <- _]. by apply os_mkdir_post in Hos as [? _].
  - unfold mkdir_exists.
    destruct (is_FileNotFoundError e); [|destruct (_ || _)];
      intros [= <- _]; apply keeps_nodes_refl.
Qed.

(** Whatever its outcome, [Path.mkdir] only adds nodes. *)
Lemma mkdir_rec_keeps (n : nat) (parents exist_ok : bool) (t t' : fs) cwd p o :
  mkdir_rec n parents exist_ok t cwd p = (t', o) → keeps_nodes t t'.
Proof.
  revert parents exist_ok t t' p o.
  induction n as [|n IH]; intros parents exist_ok t t' p o; simpl;
    destruct (os_mkdir t cwd p) as [t1|e] eqn:Hos.
  - intros [= <- _]. by apply os_mkdir_post in Hos as [? _].
  - unfold mkdir_exists.
    destruct (is_FileNotFoundError e); [|destruct (_ || _)];
      intros [= <- _]; apply keeps_nodes_refl.
  - intros [= <- _]. by apply os_mkdir_post in Hos as [? _].
  - destruct (is_FileNotFoundError e).
    + destruct parents; simpl; [|intros [= <- _]; apply keeps_nodes_refl].
      destruct (mkdir_rec n true true t cwd (parent p)) as [t1 [[]|e1]] eqn:Hrec.
      * intros H. eapply keeps_nodes_trans; [by eapply IH|by eapply mkdir_here_keeps].
      * intros [= <- _]. by eapply IH.
    + unfold mkdir_exists. destruct (_ || _);
        intros [= <- _]; apply keeps_nodes_refl.
Qed.

(** When [Path.mkdir] returns, the path is a directory. *)
Lemma mkdir_rec_post (n : nat) (parents exist_ok : bool) (t t' : fs) cwd p :
  mkdir_rec n parents exist_ok t cwd p = (t', Ok tt) → is_dir t' cwd p = true.
Proof.
  destruct n as [|n]; simpl; destruct (os_mkdir t cwd p) as [t1|e] eqn:Hos.
  - intros [= <-]. by apply os_mkdir_post in Hos as [_ ?].
  - destruct (is_FileNotFoundError e); [done|].
    by intros [-> H]%mkdir_exists_post.
  - intros [= <-]. by apply os_mkdir_post in Hos as [_ ?].
  - destruct (is_FileNotFoundError e).
    + destruct parents; simpl; [|done].
      destruct (mkdir_rec n true true t cwd (parent p)) as [t1 [[]|e1]]; [|done].
      by intros [_ ?]%mkdir_here_post.
    + by intros [-> H]%mkdir_exists_post.
Qed.

(** No error when the directory already exists: nothing is done. *)
Lemma mkdir_rec_exists (n : nat) (parents : bool) (t : fs) cwd p :
  is_dir t cwd p = true → mkdir_rec n parents true t cwd p = (t, Ok tt).
Proof.
  intros Hd. pose proof Hd as (d & k & w & Hl & Hk)%is_dir_true.
  assert (Hos : os_mkdir t cwd p = Raise FileExistsError).
  { unfold os_mkdir. by rewrite Hl, Hk. }
  destruct n; simpl; rewrite Hos; simpl; unfold mkdir_exists; by rewrite Hd.
Qed.

(** *** Writing and reading back *)

Lemma write_text_ok (t t' : fs) cwd p s :
  write_text t cwd p s = Ok t' →
  ∃ d k, locate t cwd p = Ok (d, k) ∧ (∀ w, t !! k ≠ Some (Dir w)) ∧
         t' = <[k := File s]> t.
Proof.
  unfold write_text. destruct (locate t cwd p) as [[d k]|e]; [|done].
  destruct (t !! k) as [[s'|w]|] eqn:Hk; [| done |].
  - intros [= <-]. exists d, k. by rewrite Hk.
  - destruct (t !! d) as [[s'|[]]|]; try done.
    intros [= <-]. exists d, k. by rewrite Hk.
Qed.

Lemma write_text_keeps (t t' : fs) cwd p s :
  write_text t cwd p s = Ok t' → keeps_dirs t t'.
Proof.
  intros (d & k & _ & Hk & ->)%write_text_ok. by apply keeps_dirs_insert_file.
Qed.

Lemma write_text_read (t t' : fs) cwd p s :
  write_text t cwd p s = Ok t' → read_text t' cwd p = Some s.
Proof.
  intros Hw. pose proof (write_text_keeps _ _ _ _ _ Hw) as Hkeep.
  apply write_text_ok in Hw as (d & k & Hl & Hk & ->).
  unfold read_text. rewrite (locate_keeps _ _ _ _ _ _ Hkeep Hl).
  by rewrite fs_lookup_insert_eq.
Qed.

(** A file can be created in a writable directory, under a name that is
    not taken by a directory. *)
Lemma write_text_creates (t : fs) cwd a ps c s k :
  lookup_dir t (start cwd (mkPath a ps)) ps = Ok k →
  t !! k = Some (Dir true) →
  (∀ w, t !! step k c ≠ Some (Dir w)) →
  write_text t cwd (mkPath a (ps ++ [c])) s = Ok (<[step k c := File s]> t).
Proof.
  intros Hl Hk Hc. unfold write_text. rewrite locate_snoc, Hl, Hk.
  destruct (t !! step k c) as [[s'|w]|] eqn:H; [done| |done].
  by destruct (Hc w).
Qed.

End FSFacts.

Section MkdirParents.

Import FS.

Lemma step_plain (d : list string) (c : string) : plain c → step d c = d ++ [c].
Proof. unfold plain, step. by intros ->. Qed.

Variables (t : fs) (cwd : list string) (a : Anchor) (base news d : list string).

Hypothesis base_dir : lookup_dir t (start cwd (mkPath a base)) base = Ok d.
Hypothesis base_writable : t !! d = Some (Dir true).
Hypothesis news_plain : Forall plain news.
Hypothesis news_missing :
  ∀ i, 1 ≤ i ≤ length news → t !! (d ++ take i news) = None.

Lemma take_keys_ne (i j : nat) :
  i ≤ length news → j ≤ length news → i ≠ j → d ++ take i news ≠ d ++ take j news.
Proof.
  intros Hi Hj Hne H. apply app_inv_head in H.
  apply (f_equal length) in H. rewrite !length_take in H. lia.
Qed.

Lemma add_dirs_new (n i : nat) :
  n ≤ length news → 1 ≤ i ≤ n →
  add_dirs t d news n !! (d ++ take i news) = Some (Dir true).
Proof.
  induction n as [|n IH]; intros Hn Hi; [lia|]. simpl.
  destruct (decide (i = S n)) as [->|Hne].
  - apply fs_lookup_insert_eq.
  - rewrite fs_lookup_insert_ne by (apply take_keys_ne; lia). apply IH; lia.
Qed.

Lemma add_dirs_old (n : nat) (k : list string) :
  (∀ i, 1 ≤ i ≤ n → k ≠ d ++ take i news) →
  add_dirs t d news n !! k = t !! k.
Proof.
  induction n as [|n IH]; intros Hk; [done|]. simpl.
  rewrite fs_lookup_insert_ne by (intros Heq; apply (Hk (S n)); [lia|done]).
  apply IH. intros i Hi. apply Hk. lia.
Qed.

Lemma add_dirs_keeps (n : nat) : n ≤ length news → keeps_nodes t (add_dirs t d news n).
Proof.
  intros Hn k nd Hk. rewrite add_dirs_old; [done|].
  intros i Hi ->. rewrite news_missing in Hk by lia. done.
Qed.

Lemma add_dirs_base (n : nat) : n ≤ length news → add_dirs t d news n !! d = Some (Dir true).
Proof. intros Hn. by apply add_dirs_keeps. Qed.

(** In the tree with [n] new directories, the first [n] names resolve. *)
Lemma add_dirs_walk (n m : nat) :
  n ≤ length news → m ≤ n →
  lookup_dir (add_dirs t d news n) d (take m news) = Ok (d ++ take m news).
Proof.
  intros Hn. induction m as [|m IH]; intros Hm.
  - simpl. by rewrite app_nil_r.
  - destruct (lookup_lt_is_Some_2 news m) as [c Hc]; [lia|].
    rewrite (take_S_r _ _ _ Hc), lookup_dir_app, IH by lia. simpl.
    assert (Hp : plain c).
    { eapply Forall_forall; [exact news_plain|]. by eapply list_elem_of_lookup_2. }
    rewrite step_plain by done. rewrite <- (assoc_L (++)), <- (take_S_r _ _ _ Hc).
    by rewrite add_dirs_new by lia.
Qed.

Lemma add_dirs_resolve (n : nat) :
  n ≤ length news →
  lookup_dir (add_dirs t d news n) (start cwd (mkPath a base)) (base ++ take n news)
  = Ok (d ++ take n news).
Proof.
  intros Hn. rewrite lookup_dir_app.
  rewrite (lookup_dir_keeps t _ _ _ d); [by apply add_dirs_walk| |done].
  by apply keeps_nodes_dirs, add_dirs_keeps.
Qed.

(** Creating the next directory succeeds once those before it exist. *)
Lemma os_mkdir_next (n : nat) (c : string) :
  news !! n = Some c →
  os_mkdir (add_dirs t d news n) cwd (mkPath a ((base ++ take n news) ++ [c]))
  = Ok (add_dirs t d news (S n)).
Proof.
  intros Hc. pose proof (lookup_lt_Some _ _ _ Hc) as Hlt.
  assert (Hp : plain c).
  { eapply Forall_forall; [exact news_plain|]. by eapply list_elem_of_lookup_2. }
  unfold os_mkdir. rewrite locate_snoc.
  change (start cwd (mkPath a (base ++ take n news))) with (start cwd (mkPath a base)).
  rewrite add_dirs_resolve by lia. rewrite step_plain by done.
  rewrite <- (assoc_L (++)), <- (take_S_r _ _ _ Hc).
  rewrite add_dirs_old.
  2:{ intros i Hi. apply take_keys_ne; lia. }
  rewrite news_missing by lia.
  destruct n as [|n].
  - simpl. rewrite app_nil_r, base_writable. reflexivity.
  - rewrite add_dirs_new by lia. reflexivity.
Qed.

(** Before any of them exists, creating a deeper directory fails for want
    of its parent. *)
Lemma os_mkdir_deep (n : nat) (c : string) :
  0 < n ≤ length news →
  os_mkdir t cwd (mkPath a ((base ++ take n news) ++ [c])) = Raise FileNotFoundError.
Proof.
  intros Hn. unfold os_mkdir. rewrite locate_snoc.
  change (start cwd (mkPath a (base ++ take n news))) with (start cwd (mkPath a base)).
  rewrite lookup_dir_app, base_dir.
  destruct news as [|c1 rest] eqn:Hnews; [simpl in Hn; lia|].
  destruct n as [|n]; [lia|]. simpl.
  assert (Hp : plain c1) by (by inversion news_plain).
  rewrite step_plain by done.
  specialize (news_missing 1). simpl in news_missing.
  rewrite take_0 in news_missing. rewrite news_missing by lia. reflexivity.
Qed.

Lemma base_is_dir : is_dir t cwd (mkPath a base) = true.
Proof.
  apply is_dir_true. revert base_dir. generalize base as b. intros b.
  destruct b as [|c0 b _] using rev_ind; intros Hb.
  - exists d, d, true. simpl in Hb. injection Hb as <-. done.
  - rewrite lookup_dir_app in Hb.
    destruct (lookup_dir t _ b) as [d'|e] eqn:Hd; [|done]. simpl in Hb.
    destruct (t !! step d' c0) as [[s|w]|] eqn:Hs; try done.
    injection Hb as <-. rewrite Hs in base_writable.
    exists d', (step d' c0), w. rewrite locate_snoc.
    change (start cwd (mkPath a b)) with (start cwd (mkPath a (b ++ [c0]))).
    by rewrite Hd.
Qed.

(** [Path.mkdir(parents=True, exist_ok=True)] creates every missing
    directory of the chain. *)
Lemma mkdir_creates (n : nat) :
  n ≤ length news →
  mkdir true true t cwd (mkPath a (base ++ take n news))
  = (add_dirs t d news n, Ok tt).
Proof.
  unfold mkdir. simpl parts.
  induction n as [|n IH]; intros Hn.
  - rewrite take_0, app_nil_r. simpl add_dirs.
    apply mkdir_rec_exists, base_is_dir.
  - destruct (lookup_lt_is_Some_2 news n) as [c Hc]; [lia|].
    rewrite (take_S_r _ _ _ Hc), (assoc_L (++)).
    rewrite length_app, Nat.add_1_r. simpl mkdir_rec.
    destruct n as [|n].
    + pose proof (os_mkdir_next 0 c Hc) as H0.
      change (add_dirs t d news 0) with t in H0. rewrite H0. reflexivity.
    + rewrite os_mkdir_deep by lia. simpl.
      unfold parent. simpl. rewrite removelast_last.
      rewrite IH by lia.
      unfold mkdir_here. rewrite (os_mkdir_next (S n) c Hc). reflexivity.
Qed.

End MkdirParents.

(** ** Running [save] *)

Section SaveFacts.

Context `{E : Engine}.

Import FS.

Lemma uuid4_run (w : World) : uuid4 w = (drawn w, Ok (w_uuid w 0)).
Proof. reflexivity. Qed.

Lemma save_mkdir_raises (w : World) fig name path t1 e :
  mkdir true true (w_fs w) (w_cwd w) path = (t1, Raise e) →
  save fig name path w = (with_fs w t1, Raise e).
Proof.
  intros Hm. unfold save, bind, Path_mkdir. by rewrite Hm.
Qed.

(** Once the directory is ensured, [save] stands or falls with the
    write. *)
Lemma save_after_mkdir (w : World) fig f name path t1 :
  w_figs w !! fig = Some f →
  mkdir true true (w_fs w) (w_cwd w) path = (t1, Ok tt) →
  save fig name path w =
    match write_text t1 (w_cwd w) (saved_path name path (w_now w))
            (saved_html f w) with
    | Ok t2 =>
        (with_log (with_fs (drawn w) t2)
           (w_log w ++ ["Saved figure to " +:+
                          path_str (saved_path name path (w_now w))]),
         Ok (saved_path name path (w_now w)))
    | Raise e => (drawn (with_fs w t1), Raise e)
    end.
Proof.
  intros Hf Hm.
  unfold save, bind, Path_mkdir, datetime_now, write_html, bind, get_figure.
  rewrite Hm. cbv beta iota zeta. fold stamp_format.
  fold (saved_path name path (w_now (with_fs w t1))).
  change (w_now (with_fs w t1)) with (w_now w).
  change (w_figs (with_fs w t1)) with (w_figs w).
  rewrite Hf, uuid4_run. unfold Path_write_text.
  change (w_fs (drawn (with_fs w t1))) with t1.
  change (w_cwd (drawn (with_fs w t1))) with (w_cwd w).
  change (w_uuid (with_fs w t1)) with (w_uuid w).
  fold (saved_html f w).
  by destruct (write_text t1 _ _ _).
Qed.

Lemma save_write_raises (w : World) fig f name path t1 e :
  w_figs w !! fig = Some f →
  mkdir true true (w_fs w) (w_cwd w) path = (t1, Ok tt) →
  write_text t1 (w_cwd w) (saved_path name path (w_now w)) (saved_html f w)
    = Raise e →
  save fig name path w = (drawn (with_fs w t1), Raise e).
Proof.
  intros Hf Hm Hw. by rewrite (save_after_mkdir _ _ _ _ _ _ Hf Hm), Hw.
Qed.

Lemma save_returns (w : World) fig f name path t1 t2 :
  w_figs w !! fig = Some f →
  mkdir true true (w_fs w) (w_cwd w) path = (t1, Ok tt) →
  write_text t1 (w_cwd w) (saved_path name path (w_now w)) (saved_html f w)
    = Ok t2 →
  save fig name path w =
    (with_log (with_fs (drawn w) t2)
       (w_log w ++ ["Saved figure to " +:+ path_str (saved_path name path (w_now w))]),
     Ok (saved_path name path (w_now w))).
Proof.
  intros Hf Hm Hw. by rewrite (save_after_mkdir _ _ _ _ _ _ Hf Hm), Hw.
Qed.

(** What a returning [save] did. *)
Lemma save_inv (w w' : World) fig f name path p :
  w_figs w !! fig = Some f →
  save fig name path w = (w', Ok p) →
  ∃ t1 t2,
    mkdir true true (w_fs w) (w_cwd w) path = (t1, Ok tt) ∧
    write_text t1 (w_cwd w) (saved_path name path (w_now w)) (saved_html f w)
      = Ok t2 ∧
    p = saved_path name path (w_now w) ∧
    w' = with_log (with_fs (drawn w) t2)
           (w_log w ++ ["Saved figure to " +:+ path_str p]).
Proof.
  intros Hf Hs.
  destruct (mkdir true true (w_fs w) (w_cwd w) path) as [t1 [[]|e]] eqn:Hm.
  - destruct (write_text t1 (w_cwd w) (saved_path name path (w_now w))
                (saved_html f w)) as [t2|e] eqn:Hw.
    + rewrite (save_returns _ _ _ _ _ _ _ Hf Hm Hw) in Hs.
      injection Hs as <- <-. by exists t1, t2.
    + by rewrite (save_write_raises _ _ _ _ _ _ _ Hf Hm Hw) in Hs.
  - by rewrite (save_mkdir_raises _ _ _ _ _ _ Hm) in Hs.
Qed.

End SaveFacts.

Section SavedPathFacts.

Lemma html_no_sep : no_sep ".html".
Proof. reflexivity. Qed.

Lemma stamped_no_sep (now : datetime) :
  no_sep (strftime now stamp_format +:+ ".html").
Proof. apply no_sep_append; [apply strftime_stamp_no_sep|apply html_no_sep]. Qed.

Lemma underscore_append (r : string) : "_" +:+ r = String "_" r.
Proof. reflexivity. Qed.

(** The file name for a base name without separator. *)
Lemma saved_path_no_sep (name : string) (path : Path) (now : datetime) :
  no_sep name →
  saved_path name path now =
    mkPath (anchor path)
      (parts path ++ [name +:+ "_" +:+ strftime now stamp_format +:+ ".html"]).
Proof.
  intros Hn. unfold saved_path, joinpath.
  rewrite underscore_append, parse_append_no_sep;
    [done|done|done|done|apply stamped_no_sep].
Qed.

Lemma parse_key (name : string) (now : datetime) :
  parse (name +:+ "_" +:+ strftime now stamp_format +:+ ".html") =
    mkPath (splitroot name).1
      (name_dirs name ++
       [name_stem name +:+ "_" +:+ strftime now stamp_format +:+ ".html"]).
Proof.
  rewrite underscore_append, parse_append; [done|done|done|apply stamped_no_sep].
Qed.

(** Two saves under one name and directory differ in the last part only. *)
Lemma saved_path_shape (name : string) (path : Path) :
  ∃ A P, ∀ now,
    saved_path name path now =
      mkPath A (P ++ [name_stem name +:+ "_" +:+ strftime now stamp_format +:+ ".html"]).
Proof.
  destruct (splitroot name).1 eqn:Ha.
  - exists (anchor path), (parts path ++ name_dirs name). intros now.
    unfold saved_path, joinpath. rewrite parse_key, Ha. simpl.
    by rewrite (assoc_L (++)).
  - exists Slash, (name_dirs name). intros now.
    unfold saved_path, joinpath. by rewrite parse_key, Ha.
  - exists DoubleSlash, (name_dirs name). intros now.
    unfold saved_path, joinpath. by rewrite parse_key, Ha.
Qed.

Lemma plain_stamped (l r : string) : plain (l +:+ "_" +:+ r).
Proof.
  unfold plain. rewrite underscore_append.
  destruct l as [|c1 [|c2 l]]; rewrite ?append_cons, ?append_nil_l; cbn.
  - reflexivity.
  - by destruct (Ascii.eqb c1 ".").
  - destruct (Ascii.eqb c1 "."); [|done]. destruct (Ascii.eqb c2 "."); [|done].
    by destruct l.
Qed.

Lemma stamped_inj (l : string) (d1 d2 : datetime) :
  valid d1 → valid d2 →
  l +:+ "_" +:+ strftime d1 stamp_format +:+ ".html" =
  l +:+ "_" +:+ strftime d2 stamp_format +:+ ".html" →
  d1 = d2.
Proof.
  intros H1 H2 H. apply (inj (String.app l)) in H.
  apply append_inj_length in H as [_ H]; [|done].
  assert (Hlen : String.length (strftime d1 stamp_format)
                 = String.length (strftime d2 stamp_format)).
  { apply (f_equal String.length) in H. rewrite !length_append in H. lia. }
  apply append_inj_length in H as [H _]; [|done].
  by apply strftime_stamp_inj.
Qed.

Lemma join_sep_snoc (ps : list string) (x : string) :
  ps ≠ [] → join_sep (ps ++ [x]) = join_sep ps +:+ "/" +:+ x.
Proof.
  induction ps as [|p [|q ps] IH]; intros Hne; [done|done|].
  change (join_sep ((p :: q :: ps) ++ [x]))
    with (p +:+ "/" +:+ join_sep ((q :: ps) ++ [x])).
  rewrite IH by done.
  change (join_sep (p :: q :: ps)) with (p +:+ "/" +:+ join_sep (q :: ps)).
  by rewrite !append_assoc.
Qed.

Lemma path_str_snoc (a : Anchor) (ps : list string) (x : string) :
  ps ≠ [] →
  path_str (mkPath a (ps ++ [x])) = path_str (mkPath a ps) +:+ "/" +:+ x.
Proof.
  intros Hne. destruct ps as [|p ps]; [done|].
  assert (H : ∀ l, path_str (mkPath a (p :: l)) = anchor_str a +:+ join_sep (p :: l))
    by (intros l; by destruct a).
  rewrite (H ps). change ((p :: ps) ++ [x]) with (p :: (ps ++ [x])). rewrite H.
  change (p :: ps ++ [x]) with ((p :: ps) ++ [x]). rewrite join_sep_snoc by done.
  by rewrite !append_assoc.
Qed.

Lemma path_str_single (a : Anchor) (x : string) :
  path_str (mkPath a [x]) = anchor_str a +:+ x.
Proof. by destruct a. Qed.

End SavedPathFacts.

(** ** Claims on [save] *)

Section SaveClaims.

Context `{E : Engine}.

(** C3, for a base name without path separator. For every figure,
    directory path and such a name, at a valid clock reading: when the
    directory can be ensured and the file written, [save] writes the
    rendered figure to exactly [<dir>/<name>_<timestamp>.html], logs it,
    and returns that same path: the path ends in [.html], its file name
    starts with the base name, and its parent is the given directory. The
    timestamp is the year, then the month, day, hour, minute and second
    zero-padded to two digits and the microsecond zero-padded to six;
    from the year 1000 on it has the shape [YYYY-MM-DD_HH-MM-SS-ffffff]
    (before, the year has fewer than four digits). *)
Theorem save_writes_timestamped_file (w : World) (fig : ref) (f : Figure)
  (name : string) (path : Path) (t1 t2 : FS.fs) :
  w_figs w !! fig = Some f →
  no_sep name →
  valid (w_now w) →
  FS.mkdir true true (w_fs w) (w_cwd w) path = (t1, Ok tt) →
  FS.write_text t1 (w_cwd w) (saved_path name path (w_now w)) (saved_html f w)
    = Ok t2 →
  let timestamp := strftime (w_now w) stamp_format in
  let filename := name +:+ "_" +:+ timestamp +:+ ".html" in
  let filepath := mkPath (anchor path) (parts path ++ [filename]) in
  ∃ w',
    save fig name path w = (w', Ok filepath) ∧
    w_fs w' = t2 ∧
    read w' filepath = Some (saved_html f w) ∧
    w_log w' = w_log w ++ ["Saved figure to " +:+ path_str filepath] ∧
    timestamp =
      decimal (year (w_now w)) +:+ "-" +:+ padded 2 (month (w_now w)) +:+ "-" +:+
      padded 2 (day (w_now w)) +:+ "_" +:+ padded 2 (hour (w_now w)) +:+ "-" +:+
      padded 2 (minute (w_now w)) +:+ "-" +:+ padded 2 (second (w_now w)) +:+ "-" +:+
      padded 6 (microsecond (w_now w)) ∧
    ((1000 <= year (w_now w))%N →
       has_shape "dddd-dd-dd_dd-dd-dd-dddddd" timestamp = true ∧
       timestamp =
         padded 4 (year (w_now w)) +:+ "-" +:+ padded 2 (month (w_now w)) +:+ "-" +:+
         padded 2 (day (w_now w)) +:+ "_" +:+ padded 2 (hour (w_now w)) +:+ "-" +:+
         padded 2 (minute (w_now w)) +:+ "-" +:+ padded 2 (second (w_now w)) +:+ "-" +:+
         padded 6 (microsecond (w_now w))) ∧
    parent filepath = path ∧
    Pathlib.name filepath = filename ∧
    (parts path ≠ [] → path_str filepath = path_str path +:+ "/" +:+ filename) ∧
    (parts path = [] → path_str filepath = anchor_str (anchor path) +:+ filename) ∧
    (∃ stem, path_str filepath = stem +:+ ".html") ∧
    (∃ rest, Pathlib.name filepath = name +:+ rest).
Proof.
  intros Hf Hn Hv Hm Hw timestamp filename filepath.
  assert (Hp : saved_path name path (w_now w) = filepath)
    by (by apply saved_path_no_sep).
  rewrite Hp in Hw.
  pose proof (save_returns w fig f name path t1 t2 Hf Hm) as Hs.
  rewrite Hp in Hs. specialize (Hs Hw).
  assert (Hstr : ∃ pre, path_str filepath = pre +:+ filename).
  { unfold filepath. destruct (parts path) as [|p ps] eqn:Hps.
    - exists (anchor_str (anchor path)). apply path_str_single.
    - exists (path_str (mkPath (anchor path) (p :: ps)) +:+ "/").
      rewrite path_str_snoc by done. by rewrite append_assoc. }
  eexists. split; [exact Hs|].
  split; [reflexivity|].
  split; [unfold read; simpl; by eapply write_text_read|].
  split; [reflexivity|].
  split; [apply strftime_stamp|].
  split.
  { intros Hy. split; [by apply strftime_stamp_shape|by apply strftime_stamp_four]. }
  split; [unfold parent, filepath; simpl; rewrite removelast_last; by destruct path|].
  split; [unfold Pathlib.name, filepath; simpl; apply last_last|].
  split; [intros Hne; unfold filepath; rewrite path_str_snoc by done; by destruct path|].
  split; [intros Hnil; unfold filepath; rewrite Hnil; apply path_str_single|].
  split.
  - destruct Hstr as [pre ->]. exists (pre +:+ name +:+ "_" +:+ timestamp).
    unfold filename. by rewrite !append_assoc.
  - exists ("_" +:+ timestamp +:+ ".html").
    unfold Pathlib.name, filepath. simpl. apply last_last.
Qed.

(** C4. [save] first ensures the destination directory and leaves the
    errors of the file system as they are.
    - An error of [mkdir] is the error of [save], before anything is
      rendered, written or logged.
    - Once [mkdir] returned, the directory exists and no node was lost;
      it still exists when [save] is over, whether the write succeeded
      or raised; an error of the write is the error of [save], and when
      the write succeeds [save] returns.
    - After a [save] that returns, the destination is a directory and
      the file is in place.
    - No error comes out of [save] but that of [mkdir] or of the write.
    - When the directory exists already, [mkdir] changes nothing and
      raises nothing: [save] does what the write does.
    - When the directory is missing, with some of its parents, below a
      writable directory, every directory of the chain is created and is
      there after [save]. *)
Theorem save_ensures_directory (w : World) (fig : ref) (f : Figure)
  (name : string) (path : Path) :
  w_figs w !! fig = Some f →
  (∀ t1 e, FS.mkdir true true (w_fs w) (w_cwd w) path = (t1, Raise e) →
     save fig name path w = (with_fs w t1, Raise e)) ∧
  (∀ t1, FS.mkdir true true (w_fs w) (w_cwd w) path = (t1, Ok tt) →
     FS.is_dir t1 (w_cwd w) path = true ∧
     keeps_nodes (w_fs w) t1 ∧
     FS.is_dir (w_fs (save fig name path w).1) (w_cwd w) path = true ∧
     keeps_dirs (w_fs w) (w_fs (save fig name path w).1) ∧
     (∀ e, FS.write_text t1 (w_cwd w) (saved_path name path (w_now w))
             (saved_html f w) = Raise e →
           save fig name path w = (drawn (with_fs w t1), Raise e)) ∧
     (∀ t2, FS.write_text t1 (w_cwd w) (saved_path name path (w_now w))
              (saved_html f w) = Ok t2 →
            (save fig name path w).2 = Ok (saved_path name path (w_now w)) ∧
            w_fs (save fig name path w).1 = t2)) ∧
  (∀ w' p, save fig name path w = (w', Ok p) →
     FS.is_dir (w_fs w') (w_cwd w') path = true ∧
     keeps_dirs (w_fs w) (w_fs w') ∧
     read w' p = Some (saved_html f w)) ∧
  (∀ e, (save fig name path w).2 = Raise e →
     (∃ t1, FS.mkdir true true (w_fs w) (w_cwd w) path = (t1, Raise e)) ∨
     (∃ t1, FS.mkdir true true (w_fs w) (w_cwd w) path = (t1, Ok tt) ∧
            FS.write_text t1 (w_cwd w) (saved_path name path (w_now w))
              (saved_html f w) = Raise e)) ∧
  (FS.path_ok path = true →
   FS.is_dir (w_fs w) (w_cwd w) path = true →
     FS.mkdir true true (w_fs w) (w_cwd w) path = (w_fs w, Ok tt) ∧
     (∀ e, (save fig name path w).2 = Raise e →
           FS.write_text (w_fs w) (w_cwd w) (saved_path name path (w_now w))
             (saved_html f w) = Raise e) ∧
     (∀ t2, FS.write_text (w_fs w) (w_cwd w) (saved_path name path (w_now w))
              (saved_html f w) = Ok t2 →
            (save fig name path w).2 = Ok (saved_path name path (w_now w)) ∧
            w_fs (save fig name path w).1 = t2)) ∧
  (∀ base news d,
     FS.path_ok path = true →
     parts path = base ++ news →
     FS.lookup_dir (w_fs w) (FS.start (w_cwd w) path) base = Ok d →
     w_fs w !! d = Some (FS.Dir true) →
     Forall plain news →
     (∀ i, 1 ≤ i ≤ length news → w_fs w !! (d ++ take i news) = None) →
     FS.mkdir true true (w_fs w) (w_cwd w) path
       = (add_dirs (w_fs w) d news (length news), Ok tt) ∧
     (∀ i, 1 ≤ i ≤ length news →
        add_dirs (w_fs w) d news (length news) !! (d ++ take i news)
          = Some (FS.Dir true)) ∧
     (∀ i, 1 ≤ i ≤ length news →
        w_fs (save fig name path w).1 !! (d ++ take i news)
          = Some (FS.Dir true))).
Proof.
  intros Hf.
  assert (Hafter : ∀ t1,
    FS.mkdir true true (w_fs w) (w_cwd w) path = (t1, Ok tt) →
    keeps_dirs t1 (w_fs (save fig name path w).1) ∧
    (∀ e, FS.write_text t1 (w_cwd w) (saved_path name path (w_now w))
            (saved_html f w) = Raise e →
          save fig name path w = (drawn (with_fs w t1), Raise e)) ∧
    (∀ t2, FS.write_text t1 (w_cwd w) (saved_path name path (w_now w))
             (saved_html f w) = Ok t2 →
           (save fig name path w).2 = Ok (saved_path name path (w_now w)) ∧
           w_fs (save fig name path w).1 = t2)).
  { intros t1 Hm. rewrite (save_after_mkdir _ _ _ _ _ _ Hf Hm).
    destruct (FS.write_text t1 _ _ _) as [t2|e] eqn:Hw.
    - split; [simpl; by eapply write_text_keeps|].
      split; [done|]. by intros ? [= <-].
    - split; [by intros k wr|]. split; [by intros ? [= <-]|done]. }
  split; [intros t1 e; apply save_mkdir_raises|].
  split.
  { intros t1 Hm. destruct (Hafter t1 Hm) as (Hk & He & Ho).
    pose proof (mkdir_rec_post _ _ _ _ _ _ _ Hm) as Hdir.
    pose proof (mkdir_rec_keeps _ _ _ _ _ _ _ _ Hm) as Hkeep.
    split; [done|]. split; [done|].
    split; [by eapply is_dir_keeps|].
    split; [eapply keeps_dirs_trans; [by apply keeps_nodes_dirs|done]|].
    by split. }
  split.
  { intros w' p Hs.
    destruct (save_inv _ _ _ _ _ _ _ Hf Hs) as (t1 & t2 & Hm & Hw & -> & ->).
    cbn [w_fs w_cwd with_log with_fs drawn with_uuid].
    pose proof (write_text_keeps _ _ _ _ _ Hw) as Hk2.
    split; [eapply is_dir_keeps; [done|by eapply mkdir_rec_post]|].
    split.
    - eapply keeps_dirs_trans; [|done].
      by eapply keeps_nodes_dirs, mkdir_rec_keeps.
    - unfold read. cbn [w_fs w_cwd with_log with_fs drawn with_uuid].
      by eapply write_text_read. }
  split.
  { intros e He.
    destruct (FS.mkdir true true (w_fs w) (w_cwd w) path) as [t1 [[]|e1]] eqn:Hm.
    - right. exists t1. split; [done|].
      destruct (Hafter t1 eq_refl) as (_ & Hr & Ho).
      destruct (FS.write_text t1 _ _ _) as [t2|e2] eqn:Hw.
      + destruct (Ho t2 eq_refl) as [Hok _]. congruence.
      + rewrite (Hr e2 eq_refl) in He. simpl in He. congruence.
    - left. exists t1. rewrite (save_mkdir_raises _ _ _ _ _ _ Hm) in He.
      simpl in He. congruence. }
  split.
  { intros _ Hdir.
    assert (Hm : FS.mkdir true true (w_fs w) (w_cwd w) path = (w_fs w, Ok tt))
      by (by apply mkdir_rec_exists).
    split; [exact Hm|]. destruct (Hafter _ Hm) as (_ & Hr & Ho).
    split; [|exact Ho]. intros e He.
    destruct (FS.write_text (w_fs w) _ _ _) as [t2|e2] eqn:Hw.
    - destruct (Ho t2 eq_refl) as [Hok _]. congruence.
    - rewrite (Hr e2 eq_refl) in He. simpl in He. congruence. }
  intros base news d _ Hparts Hbase Hd Hplain Hmiss.
  destruct path as [a ps]. simpl in Hparts. subst ps.
  change (FS.start (w_cwd w) (mkPath a (base ++ news)))
    with (FS.start (w_cwd w) (mkPath a base)) in Hbase.
  assert (Hm : FS.mkdir true true (w_fs w) (w_cwd w) (mkPath a (base ++ news))
               = (add_dirs (w_fs w) d news (length news), Ok tt)).
  { rewrite <- (firstn_all news) at 1. by apply mkdir_creates. }
  split; [exact Hm|].
  split; [intros i Hi; by apply add_dirs_new|].
  intros i Hi. destruct (Hafter _ Hm) as (Hk & _). apply Hk.
  by apply add_dirs_new.
Qed.

(** Writing one file leaves alone a file written before under another
    name of the same directory. *)
Lemma write_text_other (t1 t2 t3 t4 : FS.fs) cwd A P x1 x2 h1 h2 :
  FS.write_text t1 cwd (mkPath A (P ++ [x1])) h1 = Ok t2 →
  keeps_nodes t2 t3 →
  FS.write_text t3 cwd (mkPath A (P ++ [x2])) h2 = Ok t4 →
  plain x1 → plain x2 → x1 ≠ x2 →
  FS.read_text t4 cwd (mkPath A (P ++ [x1])) = Some h1.
Proof.
  intros (d1 & k1 & Hl1 & Hk1 & ->)%write_text_ok Hkeep Hw2 Hp1 Hp2 Hne.
  pose proof (write_text_keeps _ _ _ _ _ Hw2) as Hkeep34.
  apply write_text_ok in Hw2 as (d2 & k2 & Hl2 & Hk2 & ->).
  rewrite locate_snoc in Hl1, Hl2.
  destruct (FS.lookup_dir t1 _ P) as [d|] eqn:Hd1; [|done].
  injection Hl1 as <- <-.
  assert (Hkeep13 : keeps_dirs t1 t3).
  { eapply keeps_dirs_trans; [by apply keeps_dirs_insert_file|].
    by apply keeps_nodes_dirs. }
  rewrite (lookup_dir_keeps _ _ _ _ _ Hkeep13 Hd1) in Hl2.
  injection Hl2 as <- <-.
  unfold FS.read_text. rewrite locate_snoc.
  rewrite (lookup_dir_keeps t1 _ _ _ d); [|by eapply keeps_dirs_trans|done].
  rewrite fs_lookup_insert_ne.
  2:{ rewrite !step_plain by done. intros Heq%app_inv_head. congruence. }
  by rewrite (Hkeep _ (FS.File h1)) by apply fs_lookup_insert_eq.
Qed.

(** C5. Two saves in a row under one base name and one directory. When
    the second clock reading differs from the first, the returned paths
    differ and afterwards each file holds what its own save wrote. When
    the readings coincide (the same microsecond) nothing stands in the
    way: the second save returns the same path without an error, and the
    file then holds what the second save wrote. *)
Theorem save_twice (w w1 : World) (fig1 fig2 : ref) (f1 f2 : Figure)
  (name : string) (path p1 : Path) :
  w_figs w !! fig1 = Some f1 →
  w_figs w !! fig2 = Some f2 →
  valid (w_now w) →
  save fig1 name path w = (w1, Ok p1) →
  (∀ now2 w2 p2,
     valid now2 →
     now2 ≠ w_now w →
     save fig2 name path (with_now w1 now2) = (w2, Ok p2) →
     p1 ≠ p2 ∧
     read w2 p1 = Some (saved_html f1 w) ∧
     read w2 p2 = Some (saved_html f2 w1)) ∧
  (∃ w2,
     save fig2 name path (with_now w1 (w_now w)) = (w2, Ok p1) ∧
     read w1 p1 = Some (saved_html f1 w) ∧
     read w2 p1 = Some (saved_html f2 w1)).
Proof.
  intros Hf1 Hf2 Hv1 Hs1.
  apply (save_inv _ _ _ f1) in Hs1 as (t1 & t2 & Hm1 & Hw1 & -> & ->); [|done].
  set (w1 := with_log _ _).
  split.
  - intros now2 w2 p2 Hv2 Hne Hs2.
    apply (save_inv _ _ _ f2) in Hs2 as (t3 & t4 & Hm2 & Hw2 & -> & ->); [|done].
    change (w_now (with_now w1 now2)) with now2 in *.
    change (w_fs (with_now w1 now2)) with t2 in Hm2.
    change (w_cwd (with_now w1 now2)) with (w_cwd w) in Hm2, Hw2.
    change (saved_html f2 (with_now w1 now2)) with (saved_html f2 w1) in Hw2.
    pose proof (write_text_read _ _ _ _ _ Hw2) as Hr2.
    destruct (saved_path_shape name path) as (A & P & Hshape).
    rewrite !Hshape in *.
    assert (Hx : name_stem name +:+ "_" +:+ strftime (w_now w) stamp_format +:+ ".html"
                 ≠ name_stem name +:+ "_" +:+ strftime now2 stamp_format +:+ ".html").
    { intros Heq. apply stamped_inj in Heq; [congruence|done|done]. }
    split.
    { intros Heq. apply (f_equal parts) in Heq. cbn [parts] in Heq.
      apply app_inv_head in Heq. congruence. }
    split; [|exact Hr2].
    unfold read. cbn [w_fs w_cwd with_log with_fs].
    eapply write_text_other;
      [exact Hw1|by eapply mkdir_rec_keeps|exact Hw2|apply plain_stamped..|exact Hx].
  - pose proof (write_text_read _ _ _ _ _ Hw1) as Hr1.
    pose proof (write_text_keeps _ _ _ _ _ Hw1) as Hkeep.
    assert (Hm2 : FS.mkdir true true t2 (w_cwd w) path = (t2, Ok tt)).
    { apply mkdir_rec_exists. eapply is_dir_keeps; [exact Hkeep|].
      by eapply mkdir_rec_post. }
    pose proof Hw1 as (d & k & Hl & Hk & Ht2)%write_text_ok.
    assert (Hw2 : FS.write_text t2 (w_cwd w) (saved_path name path (w_now w))
                    (saved_html f2 w1)
                  = Ok (<[k := FS.File (saved_html f2 w1)]> t2)).
    { unfold FS.write_text. rewrite (locate_keeps _ _ _ _ _ _ Hkeep Hl).
      by rewrite Ht2, fs_lookup_insert_eq. }
    eexists. split; [|split; [exact Hr1|]].
    + apply (save_returns (with_now w1 (w_now w)) fig2 f2 name path t2 _ Hf2 Hm2 Hw2).
    + unfold read. cbn [w_fs w_cwd with_log with_fs].
      by eapply write_text_read.
Qed.




End SaveClaims.

(** ** [save] on the worked inputs *)

Lemma run_eta {A : Type} (r : World * outcome A) (a : A) :
  r.2 = Ok a → r = (r.1, Ok a).
Proof. destruct r as [w o]. simpl. by intros ->. Qed.

Lemma now0_valid : valid now0.
Proof. unfold valid, now0. simpl. lia. Qed.

Lemma now1_valid : valid now1.
Proof. unfold valid, now1. simpl. lia. Qed.

Lemma save_writes_timestamped_file_witness :
  ∃ w',
    save (E := toy_engine) 1%positive "save_test_img" (parse "output/test/img/") w0
      = (w', Ok (mkPath NoRoot
           ["output"; "test"; "img"; "save_test_img_2026-11-03_09-05-07-000042.html"])) ∧
    read w' (mkPath NoRoot
      ["output"; "test"; "img"; "save_test_img_2026-11-03_09-05-07-000042.html"])
      = Some "<html>cdn:div-1</html>" ∧
    w_log w'
      = ["Saved figure to output/test/img/save_test_img_2026-11-03_09-05-07-000042.html"] ∧
    has_shape "dddd-dd-dd_dd-dd-dd-dddddd" "2026-11-03_09-05-07-000042" = true.
Proof.
  destruct (save_writes_timestamped_file (E := toy_engine) w0 1%positive fig0
              "save_test_img" (parse "output/test/img/")
              (FS.mkdir true true fs0 ["home"] (parse "output/test/img/")).1
              (w_fs (save (E := toy_engine) 1%positive "save_test_img"
                       (parse "output/test/img/") w0).1)
              eq_refl eq_refl now0_valid eq_refl eq_refl)
    as (w' & Hs & _ & Hr & Hl & _ & Hshape & _).
  exists w'. split; [exact Hs|]. split; [exact Hr|]. split; [exact Hl|].
  apply Hshape. simpl. lia.
Defined.

(** C3 does not extend to a base name with a separator: with the name
    ["/tmp/x"] and the directory [out], the figure is written to
    [/tmp/x_<timestamp>.html], which is not [out//tmp/x_<timestamp>.html],
    does not lie in [out], and whose file name does not start with the
    base name. *)
Lemma save_absolute_name_counterexample :
  (save (E := toy_engine) 1%positive "/tmp/x" (parse "out") w_tmp).2
    = Ok (mkPath Slash ["tmp"; "x_2026-11-03_09-05-07-000042.html"]) ∧
  path_str (mkPath Slash ["tmp"; "x_2026-11-03_09-05-07-000042.html"])
    = "/tmp/x_2026-11-03_09-05-07-000042.html" ∧
  "/tmp/x_2026-11-03_09-05-07-000042.html"
    ≠ "out//tmp/x_2026-11-03_09-05-07-000042.html" ∧
  read (save (E := toy_engine) 1%positive "/tmp/x" (parse "out") w_tmp).1
    (mkPath Slash ["tmp"; "x_2026-11-03_09-05-07-000042.html"])
    = Some "<html>cdn:div-1</html>" ∧
  parent (mkPath Slash ["tmp"; "x_2026-11-03_09-05-07-000042.html"]) ≠ mkPath NoRoot ["out"] ∧
  Pathlib.name (mkPath Slash ["tmp"; "x_2026-11-03_09-05-07-000042.html"])
    = "x_2026-11-03_09-05-07-000042.html" ∧
  ¬ (∃ rest, "x_2026-11-03_09-05-07-000042.html" = "/tmp/x" +:+ rest).
Proof.
  split; [reflexivity|].
  split; [reflexivity|]. split; [discriminate|].
  split; [reflexivity|]. split; [discriminate|].
  split; [reflexivity|].
  intros [rest H]. discriminate H.
Qed.

Lemma save_ensures_directory_witness :
  save (E := toy_engine) 1%positive "fig" (parse "/srv/plots") w_ro
    = (w_ro, Raise PermissionError) ∧
  FS.is_dir (w_fs (save (E := toy_engine) 1%positive "save_test_img"
                     (parse "output/test/img/") w0).1)
    ["home"] (parse "output/test/img/") = true ∧
  w_fs (save (E := toy_engine) 1%positive "save_test_img"
          (parse "output/test/img/") w0).1 !! ["home"; "output"; "test"]
    = Some (FS.Dir true).
Proof.
  split.
  - exact (proj1 (save_ensures_directory (E := toy_engine) w_ro 1%positive fig0
                    "fig" (parse "/srv/plots") eq_refl)
             (w_fs w_ro) PermissionError eq_refl).
  - destruct (save_ensures_directory (E := toy_engine) w0 1%positive fig0
                "save_test_img" (parse "output/test/img/") eq_refl)
      as (_ & _ & Hret & _ & _ & Hchain).
    split.
    + refine (proj1 (Hret _ (mkPath NoRoot
        ["output"; "test"; "img"; "save_test_img_2026-11-03_09-05-07-000042.html"])
        _)).
      by apply run_eta.
    + destruct (Hchain [] ["output"; "test"; "img"] ["home"]
                  eq_refl eq_refl eq_refl eq_refl) as (_ & _ & Hafter).
      * repeat constructor.
      * intros [|[|[|[|i]]]] Hi; simpl in Hi; try lia; reflexivity.
      * apply (Hafter 2). simpl. lia.
Defined.

Lemma save_twice_witness :
  ∃ w1 p1 w2 p2,
    save (E := toy_engine) 1%positive "save_test_img" (parse "output/test/img/") w0
      = (w1, Ok p1) ∧
    save (E := toy_engine) 1%positive "save_test_img" (parse "output/test/img/")
      (with_now w1 now1) = (w2, Ok p2) ∧
    p1 ≠ p2 ∧
    read w2 p1 = Some "<html>cdn:div-1</html>" ∧
    read w2 p2 = Some "<html>cdn:div-2</html>".
Proof.
  pose (r1 := save (E := toy_engine) 1%positive "save_test_img"
                (parse "output/test/img/") w0).
  pose (r2 := save (E := toy_engine) 1%positive "save_test_img"
                (parse "output/test/img/") (with_now r1.1 now1)).
  pose (p1 := mkPath NoRoot
    ["output"; "test"; "img"; "save_test_img_2026-11-03_09-05-07-000042.html"]).
  pose (p2 := mkPath NoRoot
    ["output"; "test"; "img"; "save_test_img_2026-11-03_09-05-07-000043.html"]).
  assert (H1 : r1 = (r1.1, Ok p1)) by (by apply run_eta).
  assert (H2 : r2 = (r2.1, Ok p2)) by (by apply run_eta).
  destruct (save_twice (E := toy_engine) w0 r1.1 1%positive 1%positive
              fig0 fig0 "save_test_img" (parse "output/test/img/") p1
              eq_refl eq_refl now0_valid H1) as [Hd _].
  destruct (Hd now1 r2.1 p2 now1_valid) as (Hne & Hr1 & Hr2);
    [discriminate|exact H2|].
  exists r1.1, p1, r2.1, p2.
  split; [exact H1|]. split; [exact H2|]. split; [exact Hne|].
  split; [exact Hr1|exact Hr2].
Defined.



(** ** The broadcast helper *)

Section BroadcastFacts.

Import Utillib.

Context {A : Type}.

Lemma tabulate_length (sh : list nat) (f : list nat → A) :
  length (tabulate sh f) = count sh.
Proof.
  revert f. induction sh as [|n sh IH]; intros f; [done|].
  cbn [tabulate count foldr]. rewrite length_join.
  rewrite <- list_fmap_compose.
  rewrite (sum_list_fmap_same (count sh)).
  - by rewrite length_seq.
  - apply Forall_forall. intros i _. apply IH.
Qed.

Lemma offset_bound (sh idx : list nat) :
  in_bounds sh idx → offset sh idx < count sh.
Proof.
  unfold in_bounds. intros H. induction H as [|i n idx sh Hi _ IH]; cbn; [lia|].
  fold (count sh). nia.
Qed.

(** The entry of a tabulated array at an index within the shape. *)
Lemma tabulate_lookup (sh idx : list nat) (f : list nat → A) :
  in_bounds sh idx → tabulate sh f !! offset sh idx = Some (f idx).
Proof.
  unfold in_bounds. intros H. revert f.
  induction H as [|i n idx sh Hi Hb IH]; intros f; [done|].
  cbn [tabulate offset].
  apply (join_lookup_Some_same_length' (count sh)).
  - apply Forall_fmap, Forall_forall. intros j _. apply tabulate_length.
  - by apply offset_bound.
  - exists (tabulate sh (λ idx', f (i :: idx'))). split; [|apply IH].
    by rewrite list_lookup_fmap, lookup_seq_lt.
Qed.

Lemma in_bounds_insert (sh idx : list nat) (dim k n : nat) :
  in_bounds sh idx → sh !! dim = Some n → k < n →
  in_bounds sh (<[dim := k]> idx).
Proof.
  unfold in_bounds. intros H Hn Hk.
  rewrite <- (list_insert_id sh dim n Hn). by apply Forall2_insert.
Qed.

Lemma lookups_all (a : list A) :
  (λ k, a !! k) <$> seq 0 (length a) = Some <$> a.
Proof.
  apply list_eq. intros i. rewrite !list_lookup_fmap.
  destruct (decide (i < length a)) as [Hi|Hi].
  - rewrite lookup_seq_lt by done. simpl.
    destruct (lookup_lt_is_Some_2 a i Hi) as [x Hx]. by rewrite Hx.
  - rewrite lookup_seq_ge, lookup_ge_None_2 by lia. done.
Qed.

End BroadcastFacts.

Section BroadcastClaim.

Import Utillib.

Context {A : Type} `{!Inhabited A}.

(** C8. For a 1-D sequence [a], an axis [dim] of the shape and a shape:
    when [len(a) != shape[dim]] the helper fails with the shape-mismatch
    error; otherwise it returns an array of the requested shape (with as
    many elements as the shape counts) whose entry at every index is the
    element of [a] at the index's component [dim], so that every slice
    along [dim], at any fixed position on the other axes, is [a] itself. *)
Theorem orient_and_broadcast_spec (a : list A) (dim : nat) (sh : list nat) (n : nat) :
  sh !! dim = Some n →
  (length a ≠ n →
     orient_and_broadcast a dim sh = Raise (ValueError "shape mismatch")) ∧
  (length a = n →
     ∃ arr,
       orient_and_broadcast a dim sh = Ok arr ∧
       shape arr = sh ∧
       length (elems arr) = count sh ∧
       ∀ idx, in_bounds sh idx →
         get arr idx = a !! (idx !!! dim) ∧
         slice_along arr dim idx = Some <$> a).
Proof.
  intros Hn. unfold orient_and_broadcast. rewrite Hn. split.
  - intros Hne. by rewrite decide_False.
  - intros Hlen. rewrite decide_True by done.
    eexists. split; [reflexivity|]. split; [reflexivity|].
    split; [apply tabulate_length|].
    assert (Hget : ∀ idx, in_bounds sh idx →
              get (mkArray sh (tabulate sh (λ idx, a !!! (idx !!! dim)))) idx
              = a !! (idx !!! dim)).
    { intros idx Hb. unfold get. simpl. rewrite tabulate_lookup by done.
      symmetry. apply list_lookup_lookup_total_lt.
      rewrite Hlen.
      destruct (Forall2_lookup_r _ _ _ _ _ Hb Hn) as (i & Hi & Hlt).
      by rewrite (list_lookup_total_correct _ _ _ Hi). }
    intros idx Hb. split; [by apply Hget|].
    unfold slice_along. simpl.
    rewrite (list_lookup_total_correct _ _ _ Hn), <- Hlen, <- lookups_all.
    apply list_fmap_ext. intros j k Hk.
    apply lookup_seq in Hk as [-> Hk]. simpl.
    rewrite Hget by (eapply in_bounds_insert; [done..|lia]).
    f_equal. apply list_lookup_total_insert_eq.
    destruct (Forall2_lookup_r _ _ _ _ _ Hb Hn) as (i & Hi & _).
    by eapply lookup_lt_Some.
Qed.

End BroadcastClaim.

Lemma orient_and_broadcast_spec_witness :
  Utillib.orient_and_broadcast [5%Z; 7%Z] 1 [3; 2; 2]
    = Ok (Utillib.mkArray [3; 2; 2]
            [5; 5; 7; 7; 5; 5; 7; 7; 5; 5; 7; 7]%Z) ∧
  Utillib.orient_and_broadcast [5%Z; 7%Z] 0 [3; 2; 2]
    = Raise (ValueError "shape mismatch") ∧
  Utillib.slice_along
    (Utillib.mkArray [3; 2; 2] [5; 5; 7; 7; 5; 5; 7; 7; 5; 5; 7; 7]%Z) 1 [2; 0; 1]
    = [Some 5%Z; Some 7%Z].
Proof.
  split; [reflexivity|].
  split.
  - exact (proj1 (orient_and_broadcast_spec [5%Z; 7%Z] 0 [3; 2; 2] 3 eq_refl)
             ltac:(discriminate)).
  - reflexivity.
Defined.

(** * Further properties *)

(** ** What [style_to_matplotlib] leaves alone *)

Section StyleFrame.

Lemma styled_axis_lookup (kw : Axis) (axes : gmap positive Axis) k a :
  axes !! k = Some a → for_each_axis kw axes !! k = Some (update_axis kw a).
Proof.
  intros Ha. unfold for_each_axis, select_axes. rewrite lookup_fmap.
  destruct (axes !! 1%positive) eqn:H1.
  - by rewrite Ha.
  - rewrite lookup_insert_ne by congruence. by rewrite Ha.
Qed.

Lemma styled_axis_dom (kw : Axis) (axes : gmap positive Axis) k :
  k ≠ 1%positive → for_each_axis kw axes !! k = None ↔ axes !! k = None.
Proof.
  intros Hk. unfold for_each_axis, select_axes. rewrite lookup_fmap.
  destruct (axes !! 1%positive) eqn:H1.
  - by rewrite fmap_None.
  - rewrite lookup_insert_ne by done. by rewrite fmap_None.
Qed.

(** X1. Styling changes the layout properties it names and no other: the
    traces, the title, the scene, the left margin and every property
    outside the keyword arguments stay as the input has them. *)
Theorem style_to_matplotlib_keeps_rest (w : World) (fig : ref) (f : Figure) :
  w_figs w !! fig = Some f →
  ∃ r w' g,
    style_to_matplotlib fig w = (w', Ok r) ∧
    w_figs w' !! r = Some g ∧
    data g = data f ∧
    title (layout g) = title (layout f) ∧
    scene (layout g) = scene (layout f) ∧
    layout_other (layout g) = layout_other (layout f) ∧
    margin_l (margin (layout g)) = margin_l (margin (layout f)) ∧
    margin_other (margin (layout g)) = margin_other (margin (layout f)) ∧
    font_other (layout_font (layout g)) = font_other (layout_font (layout f)).
Proof.
  intros Hf. eexists _, _, (styled f).
  split; [by apply style_to_matplotlib_run|].
  split; [apply lookup_insert_eq|].
  split; [reflexivity|].
  rewrite styled_layout. cbv zeta. simpl.
  rewrite !(left_id_L ∅ (∪)). done.
Qed.

Lemma style_to_matplotlib_keeps_rest_witness :
  ∃ r w' g,
    style_to_matplotlib 1%positive w0 = (w', Ok r) ∧
    w_figs w' !! r = Some g ∧
    data g = data fig0 ∧
    title (layout g) = Some "Test Line Plot" ∧
    margin_l (margin (layout g)) = Some 5%Q.
Proof.
  destruct (style_to_matplotlib_keeps_rest w0 1%positive fig0 eq_refl)
    as (r & w' & g & Hs & Hg & Hd & Ht & _ & _ & Hm & _).
  exists r, w', g. auto.
Defined.

(** X2. Styling keeps the subplots: every axis of the input is an axis of the
    output, no axis but the unsuffixed ones is added, and on each axis the
    properties outside the keyword arguments stay; the y axes also keep
    their [showticklabels], which only the x axes have set. *)
Theorem style_to_matplotlib_keeps_axes (w : World) (fig : ref) (f : Figure) :
  w_figs w !! fig = Some f →
  ∃ r w' g,
    style_to_matplotlib fig w = (w', Ok r) ∧
    w_figs w' !! r = Some g ∧
    (∀ k a, xaxes (layout f) !! k = Some a →
       ∃ a', xaxes (layout g) !! k = Some a' ∧
             axis_other a' = axis_other a ∧
             font_other (tickfont a') = font_other (tickfont a)) ∧
    (∀ k a, yaxes (layout f) !! k = Some a →
       ∃ a', yaxes (layout g) !! k = Some a' ∧
             axis_other a' = axis_other a ∧
             font_other (tickfont a') = font_other (tickfont a) ∧
             showticklabels a' = showticklabels a) ∧
    (∀ k, k ≠ 1%positive →
       (xaxes (layout g) !! k = None ↔ xaxes (layout f) !! k = None) ∧
       (yaxes (layout g) !! k = None ↔ yaxes (layout f) !! k = None)).
Proof.
  intros Hf. eexists _, _, (styled f).
  split; [by apply style_to_matplotlib_run|].
  split; [apply lookup_insert_eq|].
  rewrite styled_layout. cbv zeta. simpl.
  split; [|split].
  - intros k a Ha. eexists. split; [by apply styled_axis_lookup|].
    simpl. by rewrite !(left_id_L ∅ (∪)).
  - intros k a Ha. eexists. split; [by apply styled_axis_lookup|].
    simpl. by rewrite !(left_id_L ∅ (∪)).
  - intros k Hk. split; by apply styled_axis_dom.
Qed.

Lemma style_to_matplotlib_keeps_axes_witness :
  ∃ r w' g a',
    style_to_matplotlib 1%positive w0 = (w', Ok r) ∧
    w_figs w' !! r = Some g ∧
    xaxes (layout g) !! 2%positive = Some a' ∧
    axis_other a' = ∅.
Proof.
  destruct (style_to_matplotlib_keeps_axes w0 1%positive fig0 eq_refl)
    as (r & w' & g & Hs & Hg & Hx & _).
  destruct (Hx 2%positive _ eq_refl) as (a' & Ha & Ho & _).
  exists r, w', g, a'. auto.
Defined.

End StyleFrame.

(** ** The figure of [surface] *)

Section SurfaceFacts.

Context `{E : Engine}.

Lemma contours_lookup (props : gmap string scalar) :
  (contours_z_kwargs ∪ props) !! "contours.z.show" = Some (SBool true) ∧
  (contours_z_kwargs ∪ props) !! "contours.z.usecolormap" = Some (SBool true) ∧
  (contours_z_kwargs ∪ props) !! "contours.z.highlightcolor" = Some (SStr "limegreen") ∧
  (contours_z_kwargs ∪ props) !! "contours.z.project.z" = Some (SBool true).
Proof.
  unfold contours_z_kwargs.
  repeat split; apply lookup_union_Some_l; by simplify_map_eq.
Qed.

Lemma contours_lookup_other (props : gmap string scalar) (key : string) :
  key ∉ contour_keys →
  (contours_z_kwargs ∪ props) !! key = props !! key.
Proof.
  unfold contour_keys. intros Hk.
  apply lookup_union_r. unfold contours_z_kwargs.
  rewrite !lookup_insert_ne, lookup_singleton_ne; [done|..];
    intros <-; apply Hk; set_solver.
Qed.

(** X3. When the engine builds the surface trace [t], the object [surface]
    creates holds a figure with exactly one trace: [t] with the four
    contour properties of the z axis switched on (whatever [t] had there)
    and every other property as the engine set it; the layout carries the
    given title and axis titles. This holds with or without display. *)
Theorem surface_builds_one_contoured_trace
  (sx sy sz : Array) (title title_x title_y title_z : option string)
  (show : bool) (w : World) (t : Trace) :
  go_Surface sz sx sy = Ok t →
  ∃ g t',
    w_figs (surface sx sy sz title title_x title_y title_z show w).1
      !! fresh (dom (w_figs w)) = Some g ∧
    data g = [t'] ∧
    trace_type t' = trace_type t ∧
    trace_props t' !! "contours.z.show" = Some (SBool true) ∧
    trace_props t' !! "contours.z.usecolormap" = Some (SBool true) ∧
    trace_props t' !! "contours.z.highlightcolor" = Some (SStr "limegreen") ∧
    trace_props t' !! "contours.z.project.z" = Some (SBool true) ∧
    (∀ key, key ∉ contour_keys → trace_props t' !! key = trace_props t !! key) ∧
    Plotly.title (layout g) = title ∧
    xaxis_title (scene (layout g)) = title_x ∧
    yaxis_title (scene (layout g)) = title_y ∧
    zaxis_title (scene (layout g)) = title_z.
Proof.
  intros Ht.
  exists (surface_figure title title_x title_y title_z t),
         (mkTrace (trace_type t) (contours_z_kwargs ∪ trace_props t)).
  split.
  { rewrite surface_present, Ht. simpl outcome_map.
    destruct show.
    - rewrite present_show. cbv zeta.
      destruct (w_viewer w); simpl; apply lookup_insert_eq.
    - rewrite present_quiet. simpl. apply lookup_insert_eq. }
  split; [reflexivity|]. split; [reflexivity|].
  destruct (contours_lookup (trace_props t)) as (H1 & H2 & H3 & H4).
  repeat (split; [assumption|]).
  split; [intros key Hk; by apply contours_lookup_other|].
  repeat split.
Qed.

End SurfaceFacts.

Lemma surface_builds_one_contoured_trace_witness :
  ∃ g t',
    w_figs (surface (E := toy_engine) [] [] [1%Q] None None None None true w0).1
      !! fresh (dom (w_figs w0)) = Some g ∧
    data g = [t'] ∧
    trace_type t' = "surface" ∧
    trace_props t' !! "contours.z.show" = Some (SBool true).
Proof.
  destruct (surface_builds_one_contoured_trace (E := toy_engine) [] [] [1%Q]
              None None None None true w0 (mkTrace "surface" ∅) eq_refl)
    as (g & t' & Hg & Hd & Hty & Hs & _).
  exists g, t'. auto.
Defined.

(** ** What [save] touches *)

Section SaveFrame.

Context `{E : Engine}.

Import FS.

Lemma save_not_a_figure (w : World) fig name path t1 :
  w_figs w !! fig = None →
  mkdir true true (w_fs w) (w_cwd w) path = (t1, Ok tt) →
  save fig name path w = (with_fs w t1, Raise (ValueError "not a figure")).
Proof.
  intros Hf Hm.
  unfold save, bind, Path_mkdir, datetime_now, write_html, bind, get_figure.
  rewrite Hm. cbv beta iota zeta.
  change (w_figs (with_fs w t1)) with (w_figs w). by rewrite Hf.
Qed.

Lemma save_runs (w : World) fig name path :
  save_run w fig name path (save fig name path w).1 (save fig name path w).2.
Proof.
  destruct (mkdir true true (w_fs w) (w_cwd w) path) as [t1 [[]|e]] eqn:Hm.
  - destruct (w_figs w !! fig) as [f|] eqn:Hf.
    + destruct (write_text t1 (w_cwd w) (saved_path name path (w_now w))
                  (saved_html f w)) as [t2|e] eqn:Hw.
      * rewrite (save_returns _ _ _ _ _ _ _ Hf Hm Hw). by eapply save_run_ok.
      * rewrite (save_write_raises _ _ _ _ _ _ _ Hf Hm Hw).
        by eapply save_run_write.
    + rewrite (save_not_a_figure _ _ _ _ _ Hf Hm). by apply save_run_figure.
  - rewrite (save_mkdir_raises _ _ _ _ _ _ Hm). by apply save_run_mkdir.
Qed.

(** X4. [save] logs exactly when it returns: one record, naming the returned
    path, on success; no record when it raises, whatever raised. *)
Theorem save_logs_iff_returns (w : World) (fig : ref) (name : string) (path : Path) :
  match (save fig name path w).2 with
  | Ok p =>
      w_log (save fig name path w).1
        = w_log w ++ ["Saved figure to " +:+ path_str p]
  | Raise _ => w_log (save fig name path w).1 = w_log w
  end.
Proof. destruct (save_runs w fig name path); reflexivity. Qed.

(** X5. [save] never touches the figure objects, the viewer, the working
    directory or the clock, whether it returns or raises; in the file
    system it keeps every directory, and every node but at most one keeps
    its content (the one being the file it writes). *)
Theorem save_frame (w : World) (fig : ref) (name : string) (path : Path) :
  w_figs (save fig name path w).1 = w_figs w ∧
  w_shown (save fig name path w).1 = w_shown w ∧
  w_viewer (save fig name path w).1 = w_viewer w ∧
  w_cwd (save fig name path w).1 = w_cwd w ∧
  w_now (save fig name path w).1 = w_now w ∧
  keeps_dirs (w_fs w) (w_fs (save fig name path w).1) ∧
  ∃ target, ∀ k n,
    k ≠ target → w_fs w !! k = Some n →
    w_fs (save fig name path w).1 !! k = Some n.
Proof.
  destruct (save_runs w fig name path) as [t1 e Hm|t1 Hm Hf|t1 f e Hm Hf Hw|t1 f t2 Hm Hf Hw];
    repeat (split; [reflexivity|]); simpl;
    pose proof (mkdir_rec_keeps _ _ _ _ _ _ _ _ Hm) as Hkeep.
  1-3: split; [by apply keeps_nodes_dirs|exists []; intros k n _; apply Hkeep].
  pose proof (write_text_keeps _ _ _ _ _ Hw) as Hkeep2.
  apply write_text_ok in Hw as (d & k & Hl & Hk & ->).
  split; [eapply keeps_dirs_trans; [by apply keeps_nodes_dirs|done]|].
  exists k. intros k' n Hne Hn. rewrite fs_lookup_insert_ne by done.
  by apply Hkeep.
Qed.

End SaveFrame.

(** ** [save] and the directories *)

Section SaveDirectories.

Context `{E : Engine}.

Import FS.



(** A chain of missing directories below a writable one: [mkdir]
    creates the chain and the file of [save] can then be written. *)
Lemma chain_ready (t : fs) (cwd : list string) (now : datetime)
  (name : string) (path : Path) (base news d : list string) (text : string) :
  no_sep name →
  parts path = base ++ news →
  lookup_dir t (start cwd path) base = Ok d →
  t !! d = Some (Dir true) →
  Forall plain news →
  (∀ i, 1 ≤ i ≤ length news → t !! (d ++ take i news) = None) →
  let filename := name +:+ "_" +:+ strftime now stamp_format +:+ ".html" in
  let t1 := add_dirs t d news (length news) in
  (∀ wr, t !! (d ++ news ++ [filename]) ≠ Some (Dir wr)) →
  mkdir true true t cwd path = (t1, Ok tt) ∧
  saved_path name path now = mkPath (anchor path) (parts path ++ [filename]) ∧
  write_text t1 cwd (saved_path name path now) text
    = Ok (<[d ++ news ++ [filename] := File text]> t1).
Proof.
  intros Hn Hparts Hbase Hd Hplain Hmiss filename t1 Hfile.
  destruct path as [a ps]. simpl in Hparts. subst ps.
  change (start cwd (mkPath a (base ++ news)))
    with (start cwd (mkPath a base)) in Hbase.
  pose proof (mkdir_creates _ _ _ _ _ _ Hbase Hd Hplain Hmiss (length news)
                (le_n _)) as Hm.
  pose proof (add_dirs_resolve _ _ _ _ _ _ Hbase Hplain Hmiss (length news)
                (le_n _)) as Hres.
  rewrite firstn_all in Hm, Hres. fold t1 in Hm, Hres.
  assert (Hkeep : keeps_nodes t t1) by (by apply add_dirs_keeps).
  assert (Hdir : t1 !! (d ++ news) = Some (Dir true)).
  { destruct (decide (news = [])) as [Hnil|Hne].
    - rewrite Hnil, app_nil_r. by apply Hkeep.
    - pose proof (add_dirs_new t news d (length news) (length news)
                    (le_n _)) as H.
      rewrite firstn_all in H. apply H. destruct news; [done|simpl; lia]. }
  assert (Hfp : plain filename) by apply plain_stamped.
  assert (Hold : t1 !! (d ++ news ++ [filename]) = t !! (d ++ news ++ [filename])).
  { apply add_dirs_old. intros i Hi Heq. apply app_inv_head in Heq.
    apply (f_equal length) in Heq. rewrite length_app, length_take in Heq.
    simpl in Heq. lia. }
  split; [exact Hm|]. split; [by rewrite saved_path_no_sep|].
  rewrite saved_path_no_sep by done. cbn [anchor parts]. fold filename.
  rewrite (assoc_L (++) d news).
  rewrite <- (step_plain (d ++ news) filename Hfp).
  apply write_text_creates; [exact Hres|exact Hdir|].
  intros wr. rewrite step_plain, <- (assoc_L (++)), Hold by done. apply Hfile.
Qed.

(** X7. [save] into a chain of directories that does not exist yet: when the
    part [base] of the destination is a writable directory, the further
    names [news] are free below it, the base name has no separator, and
    the path of the file is within the limits of the system (no name
    over 255 bytes, fewer than 4096 in all, no NUL), [save] returns the
    path [<dir>/<name>_<timestamp>.html], having created every directory
    of the chain and the file with the rendered figure, and having left
    every other node as it was. *)
Theorem save_creates_chain (w : World) (fig : ref) (f : Figure)
  (name : string) (path : Path) (base news d : list string) :
  w_figs w !! fig = Some f →
  no_sep name →
  parts path = base ++ news →
  lookup_dir (w_fs w) (start (w_cwd w) path) base = Ok d →
  w_fs w !! d = Some (Dir true) →
  Forall plain news →
  (∀ i, 1 ≤ i ≤ length news → w_fs w !! (d ++ take i news) = None) →
  let filename := name +:+ "_" +:+ strftime (w_now w) stamp_format +:+ ".html" in
  path_ok (mkPath (anchor path) (parts path ++ [filename])) = true →
  (∀ wr, w_fs w !! (d ++ news ++ [filename]) ≠ Some (Dir wr)) →
  ∃ w',
    save fig name path w
      = (w', Ok (mkPath (anchor path) (parts path ++ [filename]))) ∧
    (∀ i, 1 ≤ i ≤ length news →
       w_fs w' !! (d ++ take i news) = Some (Dir true)) ∧
    w_fs w' !! (d ++ news ++ [filename]) = Some (File (saved_html f w)) ∧
    (∀ k n, k ≠ d ++ news ++ [filename] → w_fs w !! k = Some n →
            w_fs w' !! k = Some n).
Proof.
  intros Hf Hn Hparts Hbase Hd Hplain Hmiss filename _ Hfile.
  destruct (chain_ready (w_fs w) (w_cwd w) (w_now w) name path base news d
              (saved_html f w) Hn Hparts Hbase Hd Hplain Hmiss Hfile)
    as (Hm & Hp & Hw).
  eexists. split.
  { rewrite (save_returns _ _ _ _ _ _ _ Hf Hm Hw). by rewrite Hp. }
  simpl. split; [|split].
  - intros i Hi. rewrite fs_lookup_insert_ne.
    + by apply add_dirs_new.
    + intros Heq. apply app_inv_head in Heq.
      apply (f_equal length) in Heq. rewrite length_app, length_take in Heq.
      simpl in Heq. lia.
  - apply fs_lookup_insert_eq.
  - intros k n Hk Hkn. rewrite fs_lookup_insert_ne by done.
    by apply (add_dirs_keeps (w_fs w) news d Hmiss (length news)).
Qed.

End SaveDirectories.


Lemma save_creates_chain_witness :
  ∃ w',
    save (E := toy_engine) 1%positive "save_test_img" (parse "output/test/img/") w0
      = (w', Ok (mkPath NoRoot
           ["output"; "test"; "img"; "save_test_img_2026-11-03_09-05-07-000042.html"])) ∧
    w_fs w' !! ["home"; "output"; "test"; "img"] = Some (FS.Dir true) ∧
    w_fs w' !! ["home"; "output"; "test"; "img";
                "save_test_img_2026-11-03_09-05-07-000042.html"]
      = Some (FS.File "<html>cdn:div-1</html>").
Proof.
  destruct (save_creates_chain (E := toy_engine) w0 1%positive fig0
              "save_test_img" (parse "output/test/img/") []
              ["output"; "test"; "img"] ["home"]
              eq_refl eq_refl eq_refl eq_refl eq_refl)
    as (w' & Hs & Hdirs & Hfile & _).
  - repeat constructor.
  - intros [|[|[|[|i]]]] Hi; simpl in Hi; try lia; reflexivity.
  - reflexivity.
  - intros wr. discriminate.
  - exists w'. split; [exact Hs|]. split; [|exact Hfile].
    apply (Hdirs 3). simpl. lia.
Defined.

(** ** File names and time *)

Section NameOrder.

Context `{E : Engine}.

Lemma string_compare_refl (s : string) : String.compare s s = Eq.
Proof.
  induction s as [|c s IH]; [done|]. simpl.
  unfold Ascii.compare. by rewrite N.compare_refl.
Qed.

Lemma string_compare_cons (c : ascii) (a b : string) :
  String.compare (String c a) (String c b) = String.compare a b.
Proof. simpl. unfold Ascii.compare. by rewrite N.compare_refl. Qed.

Lemma string_compare_single (x y : ascii) :
  String.compare (String x "") (String y "") = Ascii.compare x y.
Proof. simpl. by destruct (Ascii.compare x y). Qed.

(** Strings that start with parts of one length compare part by part. *)
Lemma string_compare_append (a b c d : string) :
  String.length a = String.length b →
  String.compare (a +:+ c) (b +:+ d)
    = then_compare (String.compare a b) (String.compare c d).
Proof.
  revert b. induction a as [|x a IH]; intros [|y b] Hlen; try discriminate.
  - reflexivity.
  - rewrite !append_cons. simpl. destruct (Ascii.compare x y); [|done|done].
    apply IH. by injection Hlen.
Qed.

Lemma then_compare_eq_r (c : comparison) : then_compare c Eq = c.
Proof. by destruct c. Qed.

Lemma digit_code (a : N) : (a < 10)%N → N_of_ascii (digit a) = (48 + a)%N.
Proof.
  intros Ha.
  assert (H : (a = 0 ∨ a = 1 ∨ a = 2 ∨ a = 3 ∨ a = 4 ∨ a = 5 ∨ a = 6 ∨ a = 7
               ∨ a = 8 ∨ a = 9)%N) by lia.
  repeat (destruct H as [->|H]; [reflexivity|]). by subst.
Qed.

Lemma digit_compare (a b : N) :
  (a < 10)%N → (b < 10)%N → Ascii.compare (digit a) (digit b) = (a ?= b)%N.
Proof.
  intros Ha Hb. unfold Ascii.compare. rewrite !digit_code by done.
  destruct (N.compare_spec a b), (N.compare_spec (48 + a) (48 + b));
    try reflexivity; lia.
Qed.

Lemma decimal_compare (n m : N) :
  then_compare (n / 10 ?= m / 10)%N (n mod 10 ?= m mod 10)%N = (n ?= m)%N.
Proof.
  pose proof (N.Div0.div_mod n 10) as Hn. pose proof (N.Div0.div_mod m 10) as Hm.
  assert (Hrn : (n mod 10 < 10)%N) by (by apply N.mod_lt).
  assert (Hrm : (m mod 10 < 10)%N) by (by apply N.mod_lt).
  revert Hn Hm Hrn Hrm.
  generalize (n / 10)%N (n mod 10)%N (m / 10)%N (m mod 10)%N.
  intros q1 r1 q2 r2 Hn Hm Hrn Hrm.
  destruct (N.compare_spec q1 q2); destruct (N.compare_spec r1 r2);
    destruct (N.compare_spec n m); cbn [then_compare]; try reflexivity;
    exfalso; lia.
Qed.

(** Zero-padded numbers of one width compare as the numbers do. *)
Lemma padded_compare (w : nat) (n m : N) :
  (n < 10 ^ N.of_nat w)%N → (m < 10 ^ N.of_nat w)%N →
  String.compare (padded w n) (padded w m) = (n ?= m)%N.
Proof.
  revert n m. induction w as [|w IH]; intros n m Hn Hm.
  - change (10 ^ N.of_nat 0)%N with 1%N in *.
    assert (n = 0%N) as -> by lia. assert (m = 0%N) as -> by lia. done.
  - cbn [padded]. rewrite Nat2N.inj_succ, N.pow_succ_r' in Hn, Hm.
    rewrite string_compare_append by (by rewrite !padded_length).
    rewrite IH by (apply N.Div0.div_lt_upper_bound; lia).
    rewrite string_compare_single, digit_compare by (by apply N.mod_lt).
    apply decimal_compare.
Qed.

Lemma strftime_stamp_compare (d1 d2 : datetime) :
  valid d1 → valid d2 →
  (1000 <= year d1)%N → (1000 <= year d2)%N →
  String.compare (strftime d1 stamp_format) (strftime d2 stamp_format)
    = datetime_compare d1 d2.
Proof.
  intros Hv1 Hv2 Hy1' Hy2'. rewrite !strftime_stamp_four by done.
  destruct Hv1 as (Hy1 & Hm1 & Hd1 & HH1 & HM1 & HS1 & Hf1).
  destruct Hv2 as (Hy2 & Hm2 & Hd2 & HH2 & HM2 & HS2 & Hf2).
  unfold datetime_compare.
  repeat (rewrite string_compare_append by (by rewrite !padded_length);
          rewrite padded_compare by (simpl; lia);
          f_equal;
          rewrite ?append_cons, ?append_nil_l, ?string_compare_cons).
  apply padded_compare; simpl; lia.
Qed.

(** The path of a [save] that returns. *)
Lemma save_ok_path (w w' : World) fig name path p :
  save fig name path w = (w', Ok p) → p = saved_path name path (w_now w).
Proof.
  intros Hs. pose proof (save_runs w fig name path) as H.
  rewrite Hs in H. simpl in H. by inversion H.
Qed.

(** X8. The files [save] writes under one base name sort as the clock
    readings do. For two saves that return, at valid readings from the
    year 1000 on, the text order of the two file names is the order of the
    two [datetime]s: the fields are zero-padded and the most significant
    comes first. *)
Theorem saved_names_sort_by_time (w1 w2 w1' w2' : World) (fig1 fig2 : ref)
  (name : string) (path p1 p2 : Path) :
  valid (w_now w1) →
  valid (w_now w2) →
  (1000 <= year (w_now w1))%N →
  (1000 <= year (w_now w2))%N →
  save fig1 name path w1 = (w1', Ok p1) →
  save fig2 name path w2 = (w2', Ok p2) →
  String.compare (Pathlib.name p1) (Pathlib.name p2)
    = datetime_compare (w_now w1) (w_now w2).
Proof.
  intros H1 H2 Hy1 Hy2 Hs1 Hs2.
  apply save_ok_path in Hs1 as ->. apply save_ok_path in Hs2 as ->.
  destruct (saved_path_shape name path) as (A & P & Hshape).
  rewrite !Hshape. unfold Pathlib.name. cbn [parts]. rewrite !last_last.
  rewrite string_compare_append by done.
  rewrite string_compare_refl. cbn [then_compare].
  rewrite !append_cons, !append_nil_l, string_compare_cons.
  rewrite string_compare_append by (by rewrite !strftime_stamp_length).
  rewrite string_compare_refl, then_compare_eq_r.
  by apply strftime_stamp_compare.
Qed.

End NameOrder.

Lemma saved_names_sort_by_time_witness :
  String.compare "save_test_img_2026-11-03_09-05-07-000042.html"
                 "save_test_img_2026-11-03_09-05-07-000043.html" = Lt.
Proof.
  pose (r1 := save (E := toy_engine) 1%positive "save_test_img"
                (parse "output/test/img/") w0).
  pose (r2 := save (E := toy_engine) 1%positive "save_test_img"
                (parse "output/test/img/") (with_now w0 now1)).
  pose (p1 := mkPath NoRoot
    ["output"; "test"; "img"; "save_test_img_2026-11-03_09-05-07-000042.html"]).
  pose (p2 := mkPath NoRoot
    ["output"; "test"; "img"; "save_test_img_2026-11-03_09-05-07-000043.html"]).
  assert (H1 : r1 = (r1.1, Ok p1)) by (by apply run_eta).
  assert (H2 : r2 = (r2.1, Ok p2)) by (by apply run_eta).
  refine (saved_names_sort_by_time (E := toy_engine) w0 (with_now w0 now1)
            r1.1 r2.1 1%positive 1%positive "save_test_img"
            (parse "output/test/img/") p1 p2 now0_valid now1_valid
            _ _ H1 H2); simpl; lia.
Defined.

(** ** What stands in the way of [save] *)

Section SaveErrors.

Context `{E : Engine}.

Import FS.









End SaveErrors.



(** ** The test of [save] *)

Section TestSave.

Context `{E : Engine}.

Import FS.

(** X11. [test_save] passes in a fresh working directory. When the engine
    draws the line plot, the working directory is writable and holds
    nothing called [output], the test returns: the figure was built
    without being shown, the directories [output/test/img] were made, the
    file there holds the rendered figure, and the one log record names
    it. *)
Theorem test_save_passes (df : DataFrame) (f : Figure) (w : World) :
  px_line df "$x$" (Col "$y$") (Some "Test line plot for saving") None None
    false None None "plotly" = Ok f →
  w_fs w !! w_cwd w = Some (Dir true) →
  (∀ k, w_fs w !! (w_cwd w ++ "output" :: k) = None) →
  let file := "save_test_img_" +:+ strftime (w_now w) stamp_format +:+ ".html" in
  ∃ w',
    test_save df w = (w', Ok tt) ∧
    is_dir (w_fs w') (w_cwd w') (mkPath NoRoot ["output"; "test"; "img"]) = true ∧
    read w' (mkPath NoRoot ["output"; "test"; "img"; file])
      = Some (saved_html f w) ∧
    w_log w' = w_log w ++ ["Saved figure to output/test/img/" +:+ file] ∧
    w_shown w' = w_shown w ∧
    w_figs w' = <[fresh (dom (w_figs w)) := f]> (w_figs w).
Proof.
  intros Hline Hcwd Hfree file.
  set (r := fresh (dom (w_figs w))).
  set (w1 := with_figs w (<[r := f]> (w_figs w))).
  assert (Hrun : line df "$x$" (Col "$y$") None None None None false
                   (Some "Test line plot for saving") false false w = (w1, Ok r)).
  { rewrite line_present, Hline. apply present_quiet. }
  assert (Hf : w_figs w1 !! r = Some f) by apply lookup_insert_eq.
  assert (Hpath : parse "output/test/img/" = mkPath NoRoot ["output"; "test"; "img"])
    by reflexivity.
  destruct (chain_ready (w_fs w1) (w_cwd w1) (w_now w1) "save_test_img"
              (parse "output/test/img/") [] ["output"; "test"; "img"] (w_cwd w)
              (saved_html f w1)) as (Hm & Hp & Hw).
  - reflexivity.
  - by rewrite Hpath.
  - by rewrite Hpath.
  - exact Hcwd.
  - repeat constructor.
  - intros i Hi. simpl in Hi.
    destruct i as [|[|[|[|i]]]]; try lia; apply Hfree.
  - intros wr Hx. pose proof (Hfree ["test"; "img"; file]) as Hy.
    change (w_fs w !! (w_cwd w ++ ["output"; "test"; "img"; file]) = Some (Dir wr))
      in Hx.
    by rewrite Hy in Hx.
  - pose proof (save_returns _ _ _ _ _ _ _ Hf Hm Hw) as Hsave.
    eexists. split.
    { unfold test_save, LOG_debug, bind, ret. rewrite Hrun, Hsave. reflexivity. }
    cbn [fst w_fs w_cwd w_log w_shown w_figs with_log with_fs drawn with_uuid].
    split; [|split; [|split; [|split]]].
    + rewrite <- Hpath. eapply is_dir_keeps; [by eapply write_text_keeps|].
      by eapply mkdir_rec_post.
    + unfold read. cbn [w_fs w_cwd with_log with_fs drawn with_uuid].
      rewrite Hp, Hpath in Hw. exact (write_text_read _ _ _ _ _ Hw).
    + rewrite Hp, Hpath. reflexivity.
    + reflexivity.
    + reflexivity.
Qed.

End TestSave.

Lemma test_save_passes_witness :
  (test_save (E := toy_engine) ["$x$"; "$y$"] w0).2 = Ok tt ∧
  w_log (test_save (E := toy_engine) ["$x$"; "$y$"] w0).1
    = ["Saved figure to output/test/img/save_test_img_2026-11-03_09-05-07-000042.html"].
Proof.
  destruct (test_save_passes (E := toy_engine) ["$x$"; "$y$"]
              (toy_figure "scatter" (Col "$y$")) w0 eq_refl eq_refl)
    as (w' & Hrun & _ & _ & Hlog & _).
  - intros k. reflexivity.
  - rewrite Hrun. split; [reflexivity|exact Hlog].
Defined.

(** ** The test of [style_to_matplotlib] *)

Section TestStyle.

Context `{E : Engine}.

(** X12. [test_style_to_matplotlib] passes whenever the engine draws the line
    plot: the adapter cannot fail on the figure of a builder. Afterwards
    there are two new figure objects, the one [line] built, as built, and
    its themed copy; nothing was shown, written or logged. *)
Theorem test_style_to_matplotlib_passes (df : DataFrame) (f : Figure) (w : World) :
  px_line df "x" (Col "y") (Some "Test Line Plot Matplotlib Style") None None
    false None None "plotly" = Ok f →
  ∃ w' r1 r2,
    test_style_to_matplotlib df w = (w', Ok tt) ∧
    r1 ≠ r2 ∧
    w_figs w !! r1 = None ∧
    w_figs w !! r2 = None ∧
    w_figs w' = <[r2 := styled f]> (<[r1 := f]> (w_figs w)) ∧
    themed_layout (layout (styled f)) ∧
    data (styled f) = data f ∧
    w_shown w' = w_shown w ∧
    w_log w' = w_log w ∧
    (∀ k, w_fs w' !! k = w_fs w !! k).
Proof.
  intros Hline.
  set (r1 := fresh (dom (w_figs w))).
  set (w1 := with_figs w (<[r1 := f]> (w_figs w))).
  set (r2 := fresh (dom (w_figs w1))).
  assert (Hrun : line df "x" (Col "y") None None None None false
                   (Some "Test Line Plot Matplotlib Style") false false w
                 = (w1, Ok r1)).
  { rewrite line_present, Hline. apply present_quiet. }
  assert (Hf : w_figs w1 !! r1 = Some f) by apply lookup_insert_eq.
  assert (H2 : w_figs w1 !! r2 = None) by apply fresh_ref_new.
  exists (with_figs w1 (<[r2 := styled f]> (w_figs w1))), r1, r2.
  split.
  { unfold test_style_to_matplotlib, LOG_debug, bind, ret.
    rewrite Hrun, (style_to_matplotlib_run _ _ _ Hf). reflexivity. }
  split; [intros Heq; rewrite <- Heq, Hf in H2; discriminate|].
  split; [apply fresh_ref_new|].
  split.
  { destruct (w_figs w !! r2) as [g|] eqn:Hg; [|done].
    assert (r2 ≠ r1) by (intros Heq; rewrite Heq, Hf in H2; discriminate).
    cbn [w_figs w1 with_figs] in H2. rewrite lookup_insert_ne in H2 by done.
    congruence. }
  split; [reflexivity|].
  split; [apply styled_themed|].
  split; [apply styled_data|].
  done.
Qed.

End TestStyle.

Lemma test_style_to_matplotlib_passes_witness :
  (test_style_to_matplotlib (E := toy_engine) ["x"; "y"] w0).2 = Ok tt.
Proof.
  destruct (test_style_to_matplotlib_passes (E := toy_engine) ["x"; "y"]
              (toy_figure "scatter" (Col "y")) w0 eq_refl)
    as (w' & r1 & r2 & Hrun & _).
  rewrite Hrun. reflexivity.
Defined.
